(** * CveMate: the NVD handler (src/datasources/nvd_handler.py)

    A shallow embedding of [NvdHandler] and of [utils.write2json]
    (src/handlers/utils.py), and the properties of the fetch-and-sync
    engine that the specification states about them.

    What the handler does to the outside world (HTTP requests, calls on the
    [MongodbHandler], files written) is recorded as a trace of events, in
    the order in which the calls are made.  The handler's methods are
    computations in a state-and-exception monad over that trace: a raised
    exception keeps the trace written so far.  The tasks of the thread
    pool run side by side: their calls reach the trace interleaved, in
    an order that the world decides.  What is printed, logged or
    shown on the progress bar is left out, and so is the waiting of the
    rate limiter: of the limiter the trace keeps the limit under which
    each request is issued. *)

From Stdlib Require Import ZArith List String Ascii Bool Lia Permutation.
From Stdlib Require Import QArith Qround FinFun DecimalString.
Import ListNotations.

#[local] Open Scope string_scope.
#[local] Open Scope list_scope.
#[local] Open Scope Z_scope.
#[local] Set Warnings "-register-all".

(** ** Python values *)

Module Py.

(** A decoded JSON document, as [response.json()] returns it.  Numbers are
    the integers ([totalResults] is one); [JObjectId] is a [bson.ObjectId],
    which is not JSON but may sit in a document handed to [write2json]. *)
Inductive json : Type :=
| JNull
| JBool (b : bool)
| JNum (n : Z)
| JStr (s : string)
| JArr (items : list json)
| JObj (fields : list (string * json))
| JObjectId (hex : string).

(** The value of a query parameter: an [int] or a [str]. *)
Inductive pval : Type :=
| PInt (n : Z)
| PStr (s : string).

(** A dict with string keys, in insertion order. *)
Definition dict (A : Type) : Type := list (string * A).

(** The prepared request's URL: the base and the query parameters in the
    order of the [params] dict. *)
Record url : Type := mkUrl {
  url_base : string;
  url_query : dict pval
}.

(** The exceptions that the handler raises or lets through.
    [HttpError] is line 84, [raise Exception(error_msg)], whose message
    holds the status code and the full URL; [ParseError] is line 89,
    [raise ValueError(...)], whose message holds the full URL. The next
    four are raised by the interpreter on ill-shaped data; [ValueError] is
    what [ThreadPoolExecutor] raises for a number of workers that is not
    above 0, and [FileNotFoundError] what [os.makedirs] raises on the
    empty path. *)
Inductive exn : Type :=
| HttpError (status_code : Z) (full_url : url)
| ParseError (full_url : url)
| AttributeError
| TypeError
| ZeroDivisionError
| OverflowError
| ValueError
| FileNotFoundError.

Inductive result (A : Type) : Type :=
| Ok (a : A)
| Raise (e : exn).
Arguments Ok {A} a.
Arguments Raise {A} e.

Fixpoint get {A : Type} (k : string) (d : dict A) : option A :=
  match d with
  | [] => None
  | (k', v) :: d' => if String.eqb k k' then Some v else get k d'
  end.

(** [d[k] = v]: an existing key keeps its place. *)
Fixpoint set {A : Type} (k : string) (v : A) (d : dict A) : dict A :=
  match d with
  | [] => [(k, v)]
  | (k', v') :: d' =>
      if String.eqb k k' then (k, v) :: d' else (k', v') :: set k v d'
  end.

(** [d.update(other)] *)
Definition update {A : Type} (d other : dict A) : dict A :=
  fold_left (fun acc kv => set (fst kv) (snd kv) acc) other d.

(** [obj.get(key, default)] on a decoded value: only a dict has [get]. *)
Definition json_get (obj : json) (key : string) (default : json) : result json :=
  match obj with
  | JObj fields =>
      match get key fields with
      | Some v => Ok v
      | None => Ok default
      end
  | _ => Raise AttributeError
  end.

Fixpoint chars (s : string) : list json :=
  match s with
  | EmptyString => []
  | String c s' => JStr (String c EmptyString) :: chars s'
  end.

(** [for x in v]: a list gives its items, a dict its keys, a string its
    characters; nothing else is iterable. *)
Definition iter (v : json) : result (list json) :=
  match v with
  | JArr items => Ok items
  | JObj fields => Ok (map (fun kv => JStr (fst kv)) fields)
  | JStr s => Ok (chars s)
  | _ => Raise TypeError
  end.

(** A value used as an [int] operand of [+], [-] and [//]: [bool] is a
    subclass of [int]. *)
Definition as_int (v : json) : result Z :=
  match v with
  | JNum n => Ok n
  | JBool b => Ok (if b then 1 else 0)
  | _ => Raise TypeError
  end.

Definition lower_ascii (c : ascii) : ascii :=
  let n := nat_of_ascii c in
  if (Nat.leb 65 n && Nat.leb n 90)%bool then ascii_of_nat (n + 32) else c.

(** [s.lower()] on ASCII text. *)
Fixpoint lower (s : string) : string :=
  match s with
  | EmptyString => EmptyString
  | String c s' => String (lower_ascii c) (lower s')
  end.

End Py.
Import Py.

(** ** Naive datetimes (the [datetime] module, as far as the handler uses it) *)

Module Datetime.

(** A naive [datetime] is the number of microseconds since
    0001-01-01T00:00:00 in the proleptic Gregorian calendar: the day
    ordinal less one, the time of day and the microsecond, in one
    number, which is what [datetime] arithmetic computes with. *)
Definition datetime : Type := Z.

Definition US_PER_SECOND : Z := 1000000.
Definition US_PER_MINUTE : Z := 60 * US_PER_SECOND.
Definition US_PER_HOUR : Z := 3600 * US_PER_SECOND.
Definition US_PER_DAY : Z := 24 * US_PER_HOUR.

(** [date.max.toordinal()] *)
Definition MAXORDINAL : Z := 3652059.

(** The datetimes that exist: 0001-01-01T00:00:00 to
    9999-12-31T23:59:59.999999. *)
Definition representable (t : datetime) : bool :=
  (0 <=? t) && (t <? MAXORDINAL * US_PER_DAY).


(** [timedelta(hours=h)], in microseconds. *)
Definition timedelta_hours (h : Z) : Z := h * US_PER_HOUR.

(** [t - delta]: [OverflowError] when the result is no datetime. *)
Definition sub (t : datetime) (delta : Z) : result datetime :=
  let r := t - delta in
  if representable r then Ok r else Raise OverflowError.

Definition DI400Y : Z := 146097.
Definition DI100Y : Z := 36524.
Definition DI4Y : Z := 1461.

Definition DAYS_IN_MONTH : list Z :=
  [-1; 31; 28; 31; 30; 31; 30; 31; 31; 30; 31; 30; 31].
Definition DAYS_BEFORE_MONTH : list Z :=
  [-1; 0; 31; 59; 90; 120; 151; 181; 212; 243; 273; 304; 334].

Definition b2z (b : bool) : Z := if b then 1 else 0.

(** [_ord2ymd(n)]: ordinal to (year, month, day), 0001-01-01 being day 1. *)
Definition ord2ymd (ordinal : Z) : Z * Z * Z :=
  let n := ordinal - 1 in
  let n400 := n / DI400Y in
  let n := n mod DI400Y in
  let year := n400 * 400 + 1 in
  let n100 := n / DI100Y in
  let n := n mod DI100Y in
  let n4 := n / DI4Y in
  let n := n mod DI4Y in
  let n1 := n / 365 in
  let n := n mod 365 in
  let year := year + n100 * 100 + n4 * 4 + n1 in
  if (n1 =? 4) || (n100 =? 4) then (year - 1, 12, 31)
  else
    let leapyear := (n1 =? 3) && (negb (n4 =? 24) || (n100 =? 3)) in
    let month := Z.shiftr (n + 50) 5 in
    let preceding :=
      nth (Z.to_nat month) DAYS_BEFORE_MONTH 0
      + b2z ((2 <? month) && leapyear) in
    if n <? preceding then
      let month := month - 1 in
      let preceding :=
        preceding
        - (nth (Z.to_nat month) DAYS_IN_MONTH 0
           + b2z ((month =? 2) && leapyear)) in
      (year, month, n - preceding + 1)
    else (year, month, n - preceding + 1).

Definition year (t : datetime) : Z := fst (fst (ord2ymd (t / US_PER_DAY + 1))).
Definition month (t : datetime) : Z := snd (fst (ord2ymd (t / US_PER_DAY + 1))).
Definition day (t : datetime) : Z := snd (ord2ymd (t / US_PER_DAY + 1)).
Definition hour (t : datetime) : Z := (t mod US_PER_DAY) / US_PER_HOUR.
Definition minute (t : datetime) : Z := (t mod US_PER_HOUR) / US_PER_MINUTE.
Definition second (t : datetime) : Z := (t mod US_PER_MINUTE) / US_PER_SECOND.

Definition digit (n : Z) : ascii := ascii_of_nat (48 + Z.to_nat n).

(** A number below 100 on two digits, zero-padded. *)
Definition pad2 (n : Z) : string :=
  String (digit (n / 10)) (String (digit (n mod 10)) EmptyString).

Fixpoint decimal_aux (fuel : nat) (n : Z) (acc : string) : string :=
  match fuel with
  | O => acc
  | S fuel' =>
      let acc' := String (digit (n mod 10)) acc in
      if n / 10 =? 0 then acc' else decimal_aux fuel' (n / 10) acc'
  end.

(** A year, 1 to 9999, in decimal with no padding, which is what the C
    library behind [strftime] prints for [%Y] here: year 999 is ["999"]. *)
Definition decimal (n : Z) : string := decimal_aux 4 n EmptyString.

(** One directive of the format; the handler's format uses these six. *)
Definition directive (t : datetime) (c : ascii) : string :=
  if Ascii.eqb c "Y" then decimal (year t)
  else if Ascii.eqb c "m" then pad2 (month t)
  else if Ascii.eqb c "d" then pad2 (day t)
  else if Ascii.eqb c "H" then pad2 (hour t)
  else if Ascii.eqb c "M" then pad2 (minute t)
  else if Ascii.eqb c "S" then pad2 (second t)
  else String "%" (String c EmptyString).

(** [t.strftime(fmt)] *)
Fixpoint strftime (t : datetime) (fmt : string) : string :=
  match fmt with
  | EmptyString => EmptyString
  | String c rest =>
      if Ascii.eqb c "%" then
        match rest with
        | EmptyString => String c EmptyString
        | String d rest' => String.append (directive t d) (strftime t rest')
        end
      else String c (strftime t rest)
  end.

End Datetime.

Import Datetime.

(** ** The outside world *)

(** What [requests.get(self.baseurl, headers=headers, params=params)]
    sends. *)
Record request : Type := mkRequest {
  req_url : url;
  req_headers : dict string
}.

(** What it answers: [json_body] is [None] when [response.json()] raises
    [ValueError], the body being no JSON document. *)
Record response : Type := mkResponse {
  status_code : Z;
  json_body : option json
}.

(** The calls that leave the handler, in the order they are made.
    [Get calls period req] is one [requests.get] issued from inside the
    function that [limits(calls=calls, period=period)] wraps.  The next
    four are the methods of [MongodbHandler] that the handler calls, with
    their arguments; [Write2Json] is the file that [utils.write2json]
    writes. *)
Inductive event : Type :=
| Get (calls period : Z) (req : request)
| InsertMany (collection : string) (documents : list json)
| BulkWrite (collection : string) (documents : list json)
| UpdateStatus (source : string)
| EnsureIndexOnId (collection field : string)
| Write2Json (filename : string) (content : json).

Definition trace : Type := list event.

(** *** Threads *)

Section Threads.

Context {A : Type}.

(** The next step of thread [i], and the threads once it is made; nothing
    when there is no such thread or it has ended. *)
Fixpoint take (i : nat) (threads : list (list A)) : option (A * list (list A)) :=
  match threads with
  | [] => None
  | t :: ts =>
      match i with
      | O => match t with
             | [] => None
             | x :: t' => Some (x, t' :: ts)
             end
      | S i' => match take i' ts with
                | Some (x, ts') => Some (x, t :: ts')
                | None => None
                end
      end
  end.

(** The steps of the threads in the order that a schedule gives: each
    entry of the schedule lets one thread make its next step, an entry
    that names no running thread is passed over, and at the end of the
    schedule the threads run to their end one after the other. *)
Fixpoint interleave (schedule : list nat) (threads : list (list A)) : list A :=
  match schedule with
  | [] => List.concat threads
  | i :: rest =>
      match take i threads with
      | Some (x, threads') => x :: interleave rest threads'
      | None => interleave rest threads
      end
  end.

(** [interleaved threads steps]: [steps] holds the steps of all the
    threads, those of each thread in its own order. *)
Inductive interleaved : list (list A) -> list A -> Prop :=
| interleaved_end threads :
    List.concat threads = [] -> interleaved threads []
| interleaved_step i threads x threads' steps :
    take i threads = Some (x, threads') ->
    interleaved threads' steps ->
    interleaved threads (x :: steps).

End Threads.

(** What the handler reads from outside: the answers of the source API, the
    clock, the stored time of the last update, the order in which the
    futures of the thread pool complete, the schedule of its threads, and
    whether a file can be opened for writing. *)
Record world : Type := mkWorld {
  http_get : request -> response;
  utcnow : datetime;
  get_last_update_time : string -> option datetime;
  as_completed : list Z -> list Z;
  schedule : list nat;
  writable : string -> bool
}.

(** ** The monad of the handler's methods *)

Definition M (A : Type) : Type := trace -> result A * trace.

Definition ret {A : Type} (a : A) : M A := fun tr => (Ok a, tr).

Definition raise {A : Type} (e : exn) : M A := fun tr => (Raise e, tr).

Definition bind {A B : Type} (m : M A) (k : A -> M B) : M B :=
  fun tr =>
    match m tr with
    | (Ok a, tr') => k a tr'
    | (Raise e, tr') => (Raise e, tr')
    end.

Definition lift {A : Type} (r : result A) : M A := fun tr => (r, tr).

Definition emit (e : event) : M unit := fun tr => (Ok tt, tr ++ [e]).

Definition rbind {A B : Type} (r : result A) (k : A -> result B) : result B :=
  match r with
  | Ok a => k a
  | Raise e => Raise e
  end.

Declare Scope py_scope.
Delimit Scope py_scope with py.
Notation "x <- m ;; k" := (bind m (fun x => k))
  (at level 61, m at next level, right associativity) : py_scope.
Notation "m ;; k" := (bind m (fun _ => k))
  (at level 61, right associativity) : py_scope.
Notation "x <~ r ;; k" := (rbind r (fun x => k))
  (at level 61, r at next level, right associativity) : py_scope.
#[local] Open Scope py_scope.

(** ** utils.write2json *)

(** [json.dump(data, f, cls=JSONEncoder, indent=2)]: the document that the
    file holds.  [JSONEncoder.default] turns an [ObjectId] into its string;
    everything else is encoded as it is. *)
Fixpoint json_dump (obj : json) : json :=
  match obj with
  | JObjectId hex => JStr hex
  | JArr items => JArr (map json_dump items)
  | JObj fields => JObj (map (fun kv => (fst kv, json_dump (snd kv))) fields)
  | _ => obj
  end.

(** Lines 48-54: when [open] raises, the error is logged and nothing is
    written; the caller goes on either way. *)
Definition write2json (w : world) (filename : string) (data : json) : M unit :=
  if writable w filename
  then emit (Write2Json filename (json_dump data))
  else ret tt.

(** ** NvdHandler *)

(** The [nvd] section of the configuration, each key present or not, the
    numbers already read. *)
Record nvd_config : Type := mkConfig {
  cfg_url : option string;
  cfg_apikey : option string;
  cfg_public_rate_limit : option Z;
  cfg_apikey_rate_limit : option Z;
  cfg_rolling_window : option Z;
  cfg_retry_limit : option Z;
  cfg_retry_delay : option Z;
  cfg_results_per_page : option Z;
  cfg_max_threads : option Z;
  cfg_save_data : option bool
}.

Record NvdHandler : Type := mkHandler {
  baseurl : string;
  api_key : string;
  public_rate_limit : Z;
  api_rate_limit : Z;
  rolling_window : Z;
  retry_limit : Z;
  retry_delay : Z;
  results_per_page : Z;
  max_threads : Z;
  save_data : bool
}.

Definition dflt {A : Type} (o : option A) (d : A) : A :=
  match o with
  | Some a => a
  | None => d
  end.

(** The settings that [NvdHandler.__init__] reads at lines 36-46, with
    their defaults: the attributes of the handler.  The constructor itself
    is [construct], below. *)
Definition init (cfg : nvd_config) : NvdHandler :=
  {| baseurl := dflt (cfg_url cfg) "https://services.nvd.nist.gov/rest/json/cves/2.0";
     api_key := dflt (cfg_apikey cfg) "";
     public_rate_limit := dflt (cfg_public_rate_limit cfg) 5;
     api_rate_limit := dflt (cfg_apikey_rate_limit cfg) 50;
     rolling_window := dflt (cfg_rolling_window cfg) 30;
     retry_limit := dflt (cfg_retry_limit cfg) 3;
     retry_delay := dflt (cfg_retry_delay cfg) 10;
     results_per_page := dflt (cfg_results_per_page cfg) 2000;
     max_threads := dflt (cfg_max_threads cfg) 10;
     save_data := dflt (cfg_save_data cfg) false |}.


Section Handler.

Variable self : NvdHandler.
Variable w : world.

(** The arguments of the [limits] decorator on [_make_request_limited]. *)
Definition limits_calls : Z := api_rate_limit self.
Definition limits_period : Z := rolling_window self.

Definition request_params (start_index : Z) (custom_params : option (dict pval))
  : dict pval :=
  let params := [("resultsPerPage", PInt (results_per_page self));
                 ("startIndex", PInt start_index)] in
  match custom_params with
  | Some (kv :: more) => update params (kv :: more)
  | _ => params
  end.

Definition request_headers : dict string :=
  if String.eqb (api_key self) "" then [] else [("apiKey", api_key self)].

Definition full_url (start_index : Z) (custom_params : option (dict pval)) : url :=
  mkUrl (baseurl self) (request_params start_index custom_params).

(** [_make_request_limited], the inner function of [make_request]. *)
Definition make_request_limited (start_index : Z)
    (custom_params : option (dict pval)) : M json :=
  let full_url := full_url start_index custom_params in
  let req := mkRequest full_url request_headers in
  emit (Get limits_calls limits_period req) ;;
  let response := http_get w req in
  if negb (status_code response =? 200) then
    raise (HttpError (status_code response) full_url)
  else
    match json_body response with
    | Some data => ret data
    | None => raise (ParseError full_url)
    end.

(** [[vul.get('cve', {}) for vul in vuls]] *)
Fixpoint cve_of_each (vuls : list json) : result (list json) :=
  match vuls with
  | [] => Ok []
  | vul :: rest =>
      cve <~ json_get vul "cve" (JObj []) ;;
      cves <~ cve_of_each rest ;;
      Ok (cve :: cves)
  end.

(** The list [vulnerabilities] of [make_request], lines 93-96. *)
Definition vulnerabilities_of (data : json) : result (list json) :=
  listing <~ json_get data "vulnerabilities" (JArr []) ;;
  vuls <~ iter listing ;;
  cve_of_each vuls.

Definition make_request (step : string) (start_index : Z)
    (custom_params : option (dict pval)) : M json :=
  data <- make_request_limited start_index custom_params ;;
  vulnerabilities <- lift (vulnerabilities_of data) ;;
  match vulnerabilities with
  | [] => ret tt
  | _ :: _ =>
      (if String.eqb (lower step) "init"
       then emit (InsertMany "cve" vulnerabilities)
       else emit (BulkWrite "cve" vulnerabilities)) ;;
      emit (UpdateStatus "nvd")
  end ;;
  ret data.

(** [range(lo, hi)] *)
Definition range (lo hi : Z) : list Z :=
  map (fun i => lo + Z.of_nat i) (seq 0 (Z.to_nat (hi - lo))).

(** Line 116: [(total_results + self.results_per_page - 1) // self.results_per_page];
    the [//] of Python and the [/] of [Z] both round down. *)
Definition num_pages (total_results : Z) : Z :=
  (total_results + results_per_page self - 1) / results_per_page self.

(** The start indices of the tasks submitted at lines 125-126, in the
    order of submission. *)
Definition submitted (num_pages : Z) : list Z :=
  map (fun start_index => start_index * results_per_page self) (range 1 num_pages).

(** The thread pool of line 123, and lines 125-126.
    [ThreadPoolExecutor(max_workers=self.max_threads)] raises [ValueError]
    for a number of workers that is not above 0.  Every submitted task
    runs [make_request] to its end, whatever happens to the others: the
    pool is left only when all its futures are done.  What a task returns
    and the calls it makes do not depend on the trace at the time (it
    reads nothing of it), so each task is run on its own and the calls of
    all the tasks reach the trace interleaved, under the schedule of the
    world.  The futures are handed to the loop in the order of
    [as_completed]. *)
Definition executor (tasks : list Z) : M (list (result json)) :=
  if max_threads self <=? 0 then raise ValueError
  else
    fun tr =>
      (Ok (map (fun start_index =>
                  fst (make_request "init" start_index None []))
               (as_completed w tasks)),
       tr ++ interleave (schedule w)
               (map (fun start_index =>
                       snd (make_request "init" start_index None []))
                    tasks)).

(** The loop of lines 128-132 over the futures as they complete:
    [future.result()] raises what the task raised. *)
Fixpoint collect (futures : list (result json)) (all_vulnerabilities : list json)
  : result (list json) :=
  match futures with
  | [] => Ok all_vulnerabilities
  | future :: rest =>
      data <~ future ;;
      listing <~ json_get data "vulnerabilities" (JArr []) ;;
      vulnerabilities <~ iter listing ;;
      collect rest (all_vulnerabilities ++ vulnerabilities)
  end.

Definition download_all_data : M unit :=
  initial_response <- make_request "update" 0 None ;;
  initial_vulnerabilities <-
    lift (json_get initial_response "vulnerabilities" (JArr [])) ;;
  total_results <- lift (json_get initial_response "totalResults" (JNum 0)) ;;
  total_results <- lift (as_int total_results) ;;
  (if results_per_page self =? 0 then raise ZeroDivisionError else ret tt) ;;
  let num_pages := num_pages total_results in
  let all_vulnerabilities := [] in
  futures <- executor (submitted num_pages) ;;
  all_vulnerabilities <- lift (collect futures all_vulnerabilities) ;;
  emit (EnsureIndexOnId "cve" "id") ;;
  if save_data self
  then write2json w "data/nvd_all.json" (JArr all_vulnerabilities)
  else ret tt.

(** The truth value of [last_hours], a number or [None]: [if last_hours:]
    holds for a number other than 0. *)
Definition truth (last_hours : option Z) : bool :=
  match last_hours with
  | Some h => negb (h =? 0)
  | None => false
  end.

(** Lines 145-150: the start of the window.  [elif last_update_time:]
    holds for any datetime. *)
Definition lastModStartDate (last_hours : option Z) : result datetime :=
  let last_update_time := get_last_update_time w "nvd" in
  let now_utc := utcnow w in
  if truth last_hours then
    sub now_utc (timedelta_hours (dflt last_hours 0))
  else
    match last_update_time with
    | Some t => Ok t
    | None => sub now_utc (timedelta_hours 24)
    end.

Definition TIMESTAMP : string := "%Y-%m-%dT%H:%M:%SZ".

Definition get_updates (last_hours : option Z) (follow : bool) : M unit :=
  let now_utc := utcnow w in
  lastModStartDate <- lift (lastModStartDate last_hours) ;;
  let lastModStartDate_str := strftime lastModStartDate TIMESTAMP in
  let lastModEndDate_str := strftime now_utc TIMESTAMP in
  let custom_params := [("lastModStartDate", PStr lastModStartDate_str);
                        ("lastModEndDate", PStr lastModEndDate_str)] in
  updates <- make_request "update" 0 (Some custom_params) ;;
  if save_data self
  then write2json w "data/nvd_update.json" updates
  else ret tt.

End Handler.

(** ** Observations on a run *)

Section Observations.

Variable self : NvdHandler.
Variable w : world.

(** What one call of [make_request] returns and what it adds to the trace;
    neither depends on the trace before the call. *)
Definition outcome (step : string) (start_index : Z)
    (custom_params : option (dict pval)) : result json :=
  fst (make_request self w step start_index custom_params []).

Definition events (step : string) (start_index : Z)
    (custom_params : option (dict pval)) : trace :=
  snd (make_request self w step start_index custom_params []).

(** The page that the source answers, when it answers one. *)
Definition fetched (start_index : Z) (custom_params : option (dict pval))
  : result json :=
  fst (make_request_limited self w start_index custom_params []).

(** The records of a fetched page: empty when the fetch or the decoding
    raised. *)
Definition records (start_index : Z) (custom_params : option (dict pval))
  : list json :=
  match rbind (fetched start_index custom_params) vulnerabilities_of with
  | Ok vulnerabilities => vulnerabilities
  | Raise _ => []
  end.

Definition has_records (start_index : Z) (custom_params : option (dict pval))
  : bool :=
  match records start_index custom_params with
  | [] => false
  | _ :: _ => true
  end.

(** [initial_response.get('totalResults', 0)] as the number in line 116. *)
Definition total_results_of (data : json) : result Z :=
  rbind (json_get data "totalResults" (JNum 0)) as_int.

(** The request of one call, and the write that follows a page with
    records. *)
Definition the_get (start_index : Z) (custom_params : option (dict pval)) : event :=
  Get (api_rate_limit self) (rolling_window self)
      (mkRequest (full_url self start_index custom_params) (request_headers self)).

Definition the_write (step : string) (vulnerabilities : list json) : event :=
  if String.eqb (lower step) "init"
  then InsertMany "cve" vulnerabilities
  else BulkWrite "cve" vulnerabilities.

(** The calls of the tasks of the pool, as they reach the trace. *)
Definition pool_calls (tasks : list Z) : trace :=
  interleave (schedule w) (map (fun i => events "init" i None) tasks).

Definition pool_futures (order : list Z) : list (result json) :=
  map (fun i => outcome "init" i None) order.

(** The window of an incremental sync, as query parameters. *)
Definition window_params (start : datetime) : dict pval :=
  [("lastModStartDate", PStr (strftime start TIMESTAMP));
   ("lastModEndDate", PStr (strftime (utcnow w) TIMESTAMP))].

End Observations.

Definition is_get (e : event) : bool :=
  match e with
  | Get _ _ _ => true
  | _ => false
  end.

Definition is_checkpoint (e : event) : bool :=
  match e with
  | UpdateStatus _ => true
  | _ => false
  end.

(** The calls on the store: writes, checkpoint updates, index creation. *)
Definition is_store_call (e : event) : bool :=
  match e with
  | InsertMany _ _ | BulkWrite _ _ | UpdateStatus _ | EnsureIndexOnId _ _ => true
  | _ => false
  end.

Definition store_calls (tr : trace) : trace := filter is_store_call tr.

Definition b2n (b : bool) : nat := if b then 1%nat else 0%nat.

Definition checkpoint_calls (tr : trace) : nat := List.length (filter is_checkpoint tr).

(** The URLs requested, in order. *)
Definition requested (tr : trace) : list url :=
  flat_map (fun e => match e with
                     | Get _ _ req => [req_url req]
                     | _ => []
                     end) tr.

(** The rate limits under which the requests were issued. *)
Definition limits_used (tr : trace) : list (Z * Z) :=
  flat_map (fun e => match e with
                     | Get calls period _ => [(calls, period)]
                     | _ => []
                     end) tr.

(** The files written. *)
Definition files (tr : trace) : list (string * json) :=
  flat_map (fun e => match e with
                     | Write2Json filename content => [(filename, content)]
                     | _ => []
                     end) tr.

(** ** Sample runs *)

Module Sample.

(** One entry of the source's listing: a record in its envelope. *)
Definition entry (id : string) : json := JObj [("cve", JObj [("id", JStr id)])].

Definition page (total_results : Z) (vulnerabilities : list json) : response :=
  mkResponse 200 (Some (JObj [("totalResults", JNum total_results);
                              ("vulnerabilities", JArr vulnerabilities)])).

Definition start_index_of (req : request) : option pval :=
  get "startIndex" (url_query (req_url req)).

(** A source of five records, served two to a page. *)
Definition source (req : request) : response :=
  match start_index_of req with
  | Some (PInt 0) => page 5 [entry "CVE-1"; entry "CVE-2"]
  | Some (PInt 2) => page 5 [entry "CVE-3"; entry "CVE-4"]
  | Some (PInt 4) => page 5 [entry "CVE-5"]
  | _ => page 5 []
  end.

(** The same source, whose last page answers 503. *)
Definition failing_source (req : request) : response :=
  match start_index_of req with
  | Some (PInt 4) => mkResponse 503 None
  | _ => source req
  end.

(** A source of two records, which fit in one page. *)
Definition small_source (req : request) : response :=
  match start_index_of req with
  | Some (PInt 0) => page 2 [entry "CVE-1"; entry "CVE-2"]
  | _ => page 2 []
  end.


(** A source with nothing to deliver. *)
Definition empty_source (req : request) : response := page 0 [].

(** A source whose entry has no [cve] key. *)
Definition bare_source (req : request) : response :=
  page 1 [JObj [("id", JStr "CVE-1")]].

(** A source that answers 201 with a body that is no JSON. *)
Definition created_source (req : request) : response := mkResponse 201 None.

(** A configuration file whose [nvd] section sets nothing. *)
Definition unconfigured : nvd_config :=
  mkConfig None None None None None None None None None None.

(** No API key, pages of two records, and [save_data] set on the object:
    the constructor gives no such handler, see [construct]. *)
Definition handler : NvdHandler :=
  {| baseurl := "https://services.nvd.nist.gov/rest/json/cves/2.0";
     api_key := "";
     public_rate_limit := 5;
     api_rate_limit := 50;
     rolling_window := 30;
     retry_limit := 3;
     retry_delay := 10;
     results_per_page := 2;
     max_threads := 10;
     save_data := true |}.

(** 2023-11-03T12:34:56.789012 *)
Definition now : datetime := 63834611696789012.

(** 2023-11-01T00:00:00 *)
Definition checkpoint : datetime := 63834393600000000.

Definition as_submitted (futures : list Z) : list Z := futures.

(** The tasks complete in the order of submission, the threads of the
    first two take turns, and every file can be written. *)
Definition world_of (http_get : request -> response)
    (last_update_time : option datetime) : world :=
  {| http_get := http_get;
     utcnow := now;
     get_last_update_time := fun _ => last_update_time;
     as_completed := as_submitted;
     schedule := [0; 1; 1; 0]%nat;
     writable := fun _ => true |}.

(** The last submitted completes first, the threads of the first two tasks
    take turns, and no file can be written. *)
Definition reversed_world (http_get : request -> response) : world :=
  {| http_get := http_get;
     utcnow := now;
     get_last_update_time := fun _ => None;
     as_completed := @rev Z;
     schedule := [1; 0; 1; 0; 0; 1]%nat;
     writable := fun _ => false |}.

(** A configuration that sets the page size to two records, and the
    handler that the constructor builds from it. *)
Definition paged : nvd_config :=
  mkConfig None None None None None None None (Some 2) None None.

Definition built : NvdHandler := init paged.

End Sample.

(** ** The singleton decorator (nvd_handler.py lines 17-25,
       config_handler.py lines 3-11) *)

Module Singleton.

Section Decorated.

Variables Args Instance : Type.

(** The decorated class called on its arguments: the instance that
    [__init__] builds, or what it raises. *)
Variable cls : Args -> result Instance.

(** [instances], the dict of the closure: [cls] is the one key it can
    hold. *)
Definition instances : Type := option Instance.

Definition get_instance (args : Args) (st : instances)
  : result Instance * instances :=
  match st with
  | Some instance => (Ok instance, st)
  | None =>
      match cls args with
      | Ok instance => (Ok instance, Some instance)
      | Raise e => (Raise e, None)
      end
  end.

(** Calls one after the other, each with its own arguments. *)
Fixpoint calls (arguments : list Args) (st : instances)
  : list (result Instance) * instances :=
  match arguments with
  | [] => ([], st)
  | args :: rest =>
      let (r, st1) := get_instance args st in
      let (rs, st2) := calls rest st1 in
      (r :: rs, st2)
  end.

End Decorated.

Arguments get_instance {Args Instance} cls args st.
Arguments calls {Args Instance} cls arguments st.

End Singleton.

(** ** The duration of the window in the log message (lines 155-160) *)

(** [str(n)] for an [int]. *)
Definition str (n : Z) : string := NilZero.string_of_int (Z.to_int n).

(** [duration.days] and [duration.seconds] of a [timedelta] of so many
    microseconds: the days round down, the seconds are those of the rest
    of the day. *)
Definition timedelta_days (duration : Z) : Z := duration / US_PER_DAY.
Definition timedelta_seconds (duration : Z) : Z :=
  (duration mod US_PER_DAY) / US_PER_SECOND.

(** The three numbers of the message: [days], [hours % 24], [minutes]. *)
Definition duration_parts (now_utc lastModStartDate : datetime) : Z * Z * Z :=
  let duration := now_utc - lastModStartDate in
  let days := timedelta_days duration in
  let seconds := timedelta_seconds duration in
  let hours := days * 24 + seconds / 3600 in
  let minutes := (seconds mod 3600) / 60 in
  (days, hours mod 24, minutes).

Definition duration_str (now_utc lastModStartDate : datetime) : string :=
  let '(days, hours24, minutes) := duration_parts now_utc lastModStartDate in
  if days =? 0
  then String.append (str hours24)
         (String.append " hours, " (String.append (str minutes) " minutes"))
  else String.append (str days)
         (String.append " days, "
            (String.append (str hours24)
               (String.append " hours, " (String.append (str minutes) " minutes")))).

(** ** utils.download_file (src/handlers/utils.py lines 56-108) *)

Module Utils.

Definition bytes : Type := string.

(** What [requests.get(url)] answers: the status, what
    [headers.get('Content-Type')] finds, and the body. *)
Record response : Type := mkResponse {
  status_code : Z;
  content_type_header : option string;
  content : bytes
}.

(** What [download_file] raises or lets through: line 79; the error of
    [gzip.decompress] on a body that is no gzip data; the error of
    [os.makedirs] on the empty path; the error of [open] on a path that
    names a directory; and [OSError] for what else the file system
    refuses. *)
Inductive error : Type :=
| DownloadFailed (status_code : Z)
| DecompressError
| FileNotFoundError
| IsADirectoryError
| OSError.

(** What it returns: [None] or a [str]. *)
Inductive value : Type :=
| VNone
| VStr (s : string).

(** What it does to the file system: the directories it makes and the
    files it writes. *)
Inductive fs_event : Type :=
| MakeDirs (path : string)
| WriteBinary (path : string) (data : bytes).

(** [needle in hay] *)
Fixpoint contains (needle hay : string) : bool :=
  if String.prefix needle hay then true
  else match hay with
       | EmptyString => false
       | String _ hay' => contains needle hay'
       end.

Fixpoint has_slash (p : string) : bool :=
  match p with
  | EmptyString => false
  | String c p' => Ascii.eqb c "/" || has_slash p'
  end.

(** [p[:p.rfind('/') + 1]] *)
Fixpoint head (p : string) : string :=
  match p with
  | EmptyString => EmptyString
  | String c p' => if has_slash p then String c (head p') else EmptyString
  end.

(** [s.rstrip('/')] *)
Fixpoint rstrip (s : string) : string :=
  match s with
  | EmptyString => EmptyString
  | String c s' =>
      let r := rstrip s' in
      if Ascii.eqb c "/" && String.eqb r "" then EmptyString else String c r
  end.

(** [os.path.dirname(p)] with [/] as the separator. *)
Definition dirname (p : string) : string :=
  let h := head p in
  if String.eqb (rstrip h) "" then h else rstrip h.

(** [p.endswith('/')] *)
Fixpoint ends_with_slash (p : string) : bool :=
  match p with
  | EmptyString => false
  | String c EmptyString => Ascii.eqb c "/"
  | String _ p' => ends_with_slash p'
  end.

Section Download.

(** The network and the two library functions that the body goes
    through: [None] is for the body that [gzip.decompress] rejects and for
    the bytes that [bytes.decode] rejects with [UnicodeDecodeError]. *)
Variable requests_get : string -> response.
Variable gzip_decompress : bytes -> option bytes.
Variable decode : bytes -> option string.

(** The file system: whether [os.makedirs(path, exist_ok=True)] goes well
    on a path that is not empty, and whether [open(path, 'wb')] does on a
    path that does not end in a slash. *)
Variable makedirs_ok : string -> bool.
Variable open_ok : string -> bool.

Definition download_file (url : string) (save_path : option string)
    (is_binary : bool) : (error + value) * list fs_event :=
  let response := requests_get url in
  if negb (status_code response =? 200) then
    (inl (DownloadFailed (status_code response)), [])
  else
    let content_type := dflt (content_type_header response) "" in
    let decompressed :=
      if contains "gzip" content_type
      then gzip_decompress (content response)
      else Some (content response) in
    match decompressed with
    | None => (inl DecompressError, [])
    | Some content =>
        match save_path, is_binary with
        | Some (String c path' as path), true =>
            if String.eqb (dirname path) "" then (inl FileNotFoundError, [])
            else if negb (makedirs_ok (dirname path)) then (inl OSError, [])
            else if ends_with_slash path
            then (inl IsADirectoryError, [MakeDirs (dirname path)])
            else if negb (open_ok path)
            then (inl OSError, [MakeDirs (dirname path)])
            else (inr (VStr path),
                  [MakeDirs (dirname path); WriteBinary path content])
        | _, false =>
            match decode content with
            | Some text => (inr (VStr text), [])
            | None => (inr VNone, [])
            end
        | _, true => (inr VNone, [])
        end
    end.

(** The body after line 90: decompressed when the content type names
    gzip, [None] when it does not decompress. *)
Definition body_of (response : response) : option bytes :=
  if contains "gzip" (dflt (content_type_header response) "")
  then gzip_decompress (content response)
  else Some (content response).

End Download.

End Utils.

(** ** Further observations on a run *)

Section MoreObservations.

Variable self : NvdHandler.
Variable w : world.


(** The entries of the page that a task of the pool fetched, as line 130
    reads them: none when the task raised. *)
Definition entries (start_index : Z) : list json :=
  match
    rbind (outcome self w "init" start_index None)
          (fun data => rbind (json_get data "vulnerabilities" (JArr [])) iter)
  with
  | Ok vulnerabilities => vulnerabilities
  | Raise _ => []
  end.

(** The calls on the store that one page brings. *)
Definition page_calls (step : string) (start_index : Z)
    (custom_params : option (dict pval)) : trace :=
  if has_records self w start_index custom_params
  then [the_write step (records self w start_index custom_params);
        UpdateStatus "nvd"]
  else [].

(** A request as the handler sends them all. *)
Definition sent_by_handler (e : event) : Prop :=
  match e with
  | Get calls period req =>
      calls = api_rate_limit self
      /\ period = rolling_window self
      /\ url_base (req_url req) = baseurl self
      /\ get "resultsPerPage" (url_query (req_url req))
         = Some (PInt (results_per_page self))
      /\ req_headers req =
         (if String.eqb (api_key self) "" then [] else [("apiKey", api_key self)])
  | _ => True
  end.

End MoreObservations.

Definition is_ensure_index (e : event) : bool :=
  match e with
  | EnsureIndexOnId _ _ => true
  | _ => false
  end.

Definition is_insert_many (e : event) : bool :=
  match e with
  | InsertMany _ _ => true
  | _ => false
  end.

Definition is_ok {A : Type} (r : result A) : bool :=
  match r with
  | Ok _ => true
  | Raise _ => false
  end.

Definition is_object (v : json) : bool :=
  match v with
  | JObj _ => true
  | _ => false
  end.

(** [vul.get('cve', {})] on an entry that is a dict. *)
Definition cve_of (vul : json) : json :=
  match vul with
  | JObj fields => dflt (get "cve" fields) (JObj [])
  | _ => JObj []
  end.

(** No [ObjectId] anywhere in the document. *)
Fixpoint serializable (obj : json) : bool :=
  match obj with
  | JObjectId _ => false
  | JArr items => forallb serializable items
  | JObj fields => forallb (fun kv => serializable (snd kv)) fields
  | _ => true
  end.

(** ** General facts *)

Example strftime_2023 :
  strftime 63834611696789012 TIMESTAMP = "2023-11-03T12:34:56Z".
Proof. reflexivity. Qed.

Example strftime_leap_day :
  strftime 63844761600000000 TIMESTAMP = "2024-02-29T00:00:00Z".
Proof. reflexivity. Qed.

Example strftime_1900 :
  strftime 59931705600000000 TIMESTAMP = "1900-03-01T00:00:00Z".
Proof. reflexivity. Qed.

Example strftime_last_day_of_2000 :
  strftime 63113835967000000 TIMESTAMP = "2000-12-31T05:06:07Z".
Proof. reflexivity. Qed.

Example strftime_max :
  strftime 315537897599999999 TIMESTAMP = "9999-12-31T23:59:59Z".
Proof. reflexivity. Qed.

Example strftime_year_999 :
  strftime 31525372799000000 TIMESTAMP = "999-12-31T23:59:59Z".
Proof. reflexivity. Qed.

Example strftime_min : strftime 0 TIMESTAMP = "1-01-01T00:00:00Z".
Proof. reflexivity. Qed.

Example json_dump_object_id :
  json_dump (JArr [JObj [("_id", JObjectId "65a1b2c3d4e5f60718293a4b");
                         ("id", JStr "CVE-1")]])
  = JArr [JObj [("_id", JStr "65a1b2c3d4e5f60718293a4b"); ("id", JStr "CVE-1")]].
Proof. reflexivity. Qed.

Example lower_Init : lower "Init" = "init".
Proof. reflexivity. Qed.

Section ThreadFacts.

Context {A : Type}.

Lemma take_concat i (threads : list (list A)) x threads' :
  take i threads = Some (x, threads') ->
  Permutation (List.concat threads) (x :: List.concat threads').
Proof.
  revert i x threads'.
  induction threads as [|t ts IH]; intros [|i] x ths' H; simpl in H;
    try discriminate.
  - destruct t as [|y t']; [discriminate|]. inversion H; subst. reflexivity.
  - destruct (take i ts) as [[y ts']|] eqn:E; [|discriminate].
    inversion H; subst. simpl. rewrite (IH _ _ _ E).
    apply Permutation_sym, Permutation_middle.
Qed.

Lemma interleaved_cons_nil (threads : list (list A)) steps :
  interleaved threads steps -> interleaved ([] :: threads) steps.
Proof.
  induction 1 as [threads H | i threads x threads' steps Htake _ IH].
  - apply interleaved_end. exact H.
  - apply (interleaved_step (S i) ([] :: threads) x ([] :: threads')); [|exact IH].
    simpl. rewrite Htake. reflexivity.
Qed.

Lemma interleaved_concat (threads : list (list A)) :
  interleaved threads (List.concat threads).
Proof.
  induction threads as [|t ts IH]; [apply interleaved_end; reflexivity|].
  induction t as [|x t' IHt]; simpl.
  - apply interleaved_cons_nil. exact IH.
  - apply (interleaved_step 0 ((x :: t') :: ts) x (t' :: ts)); [reflexivity|].
    exact IHt.
Qed.

(** Whatever the schedule, what [interleave] gives is an interleaving. *)
Lemma interleave_interleaved schedule (threads : list (list A)) :
  interleaved threads (interleave schedule threads).
Proof.
  revert threads. induction schedule as [|i rest IH]; intros threads; simpl.
  - apply interleaved_concat.
  - destruct (take i threads) as [[x threads']|] eqn:E; [|apply IH].
    apply (interleaved_step i threads x threads' _ E). apply IH.
Qed.

(** An interleaving holds the steps of the threads, each once. *)
Lemma interleaved_Permutation (threads : list (list A)) steps :
  interleaved threads steps -> Permutation steps (List.concat threads).
Proof.
  induction 1 as [threads H | i threads x threads' steps Htake _ IH].
  - rewrite H. reflexivity.
  - rewrite (take_concat _ _ _ _ Htake). constructor. exact IH.
Qed.

Lemma take_filter (f : A -> bool) i (threads : list (list A)) x threads' :
  take i threads = Some (x, threads') ->
  if f x
  then take i (map (filter f) threads) = Some (x, map (filter f) threads')
  else map (filter f) threads = map (filter f) threads'.
Proof.
  revert i x threads'.
  induction threads as [|t ts IH]; intros [|i] x ths' H; simpl in H;
    try discriminate.
  - destruct t as [|y t']; [discriminate|]. inversion H; subst. simpl.
    destruct (f x); reflexivity.
  - destruct (take i ts) as [[y ts']|] eqn:E; [|discriminate].
    inversion H; subst. specialize (IH _ _ _ E). simpl.
    destruct (f x); [rewrite IH; reflexivity | rewrite IH; reflexivity].
Qed.

(** The steps of one kind, out of an interleaving, are an interleaving of
    the steps of that kind of each thread. *)
Lemma interleaved_filter (f : A -> bool) (threads : list (list A)) steps :
  interleaved threads steps ->
  interleaved (map (filter f) threads) (filter f steps).
Proof.
  induction 1 as [threads H | i threads x threads' steps Htake _ IH].
  - apply interleaved_end. rewrite concat_filter_map, H. reflexivity.
  - pose proof (take_filter f _ _ _ _ Htake) as Hf. simpl.
    destruct (f x).
    + apply (interleaved_step i _ x _ _ Hf). exact IH.
    + rewrite Hf. exact IH.
Qed.

End ThreadFacts.

Section Facts.

Variable self : NvdHandler.
Variable w : world.

Lemma make_request_limited_run start_index custom_params tr :
  make_request_limited self w start_index custom_params tr =
  (fetched self w start_index custom_params,
   tr ++ [Get (api_rate_limit self) (rolling_window self)
              (mkRequest (full_url self start_index custom_params)
                         (request_headers self))]).
Proof.
  unfold fetched, make_request_limited, bind, emit, raise, ret; simpl.
  destruct (negb _); [reflexivity|].
  destruct (json_body _); reflexivity.
Qed.

Lemma make_request_run step start_index custom_params tr :
  make_request self w step start_index custom_params tr =
  (outcome self w step start_index custom_params,
   tr ++ events self w step start_index custom_params).
Proof.
  unfold outcome, events, make_request, bind.
  rewrite (make_request_limited_run _ _ tr), (make_request_limited_run _ _ []).
  destruct (fetched self w start_index custom_params) as [data|e]; [|reflexivity].
  unfold lift.
  destruct (vulnerabilities_of data) as [[|v vs]|e]; simpl; try reflexivity.
  destruct (String.eqb _ _); unfold emit, ret; simpl;
    rewrite <- !app_assoc; reflexivity.
Qed.

Lemma outcome_eq step start_index custom_params :
  outcome self w step start_index custom_params =
  rbind (fetched self w start_index custom_params)
        (fun data => rbind (vulnerabilities_of data) (fun _ => Ok data)).
Proof.
  unfold outcome, make_request, bind.
  rewrite make_request_limited_run.
  destruct (fetched self w start_index custom_params) as [data|e]; [|reflexivity].
  unfold lift; simpl.
  destruct (vulnerabilities_of data) as [[|v vs]|e]; simpl; try reflexivity.
  destruct (String.eqb _ _); reflexivity.
Qed.

Lemma events_eq step start_index custom_params :
  events self w step start_index custom_params =
  the_get self start_index custom_params ::
  match records self w start_index custom_params with
  | [] => []
  | vulnerabilities => [the_write step vulnerabilities; UpdateStatus "nvd"]
  end.
Proof.
  unfold events, records, make_request, bind, the_write, the_get.
  rewrite make_request_limited_run.
  destruct (fetched self w start_index custom_params) as [data|e]; [|reflexivity].
  unfold lift; simpl.
  destruct (vulnerabilities_of data) as [[|v vs]|e]; simpl; try reflexivity.
  destruct (String.eqb _ _); reflexivity.
Qed.

Lemma outcome_ok step start_index custom_params data :
  outcome self w step start_index custom_params = Ok data ->
  fetched self w start_index custom_params = Ok data /\
  exists vulnerabilities, vulnerabilities_of data = Ok vulnerabilities.
Proof.
  rewrite outcome_eq.
  destruct (fetched _ _ _ _) as [d|e]; simpl; [|discriminate].
  destruct (vulnerabilities_of d) as [vs|e] eqn:E; simpl; [|discriminate].
  intros H; inversion H; subst. split; [reflexivity|]. exists vs; exact E.
Qed.

Lemma vulnerabilities_of_ok data vulnerabilities :
  vulnerabilities_of data = Ok vulnerabilities ->
  exists listing vuls,
    json_get data "vulnerabilities" (JArr []) = Ok listing /\
    iter listing = Ok vuls /\ cve_of_each vuls = Ok vulnerabilities.
Proof.
  unfold vulnerabilities_of.
  destruct (json_get data _ _) as [listing|e]; simpl; [|discriminate].
  destruct (iter listing) as [vuls|e] eqn:E; simpl; [|discriminate].
  intros H. exists listing, vuls. repeat split; assumption.
Qed.

(** The calls of the pool are an interleaving of the calls of its tasks,
    and hold the calls of each task once. *)
Lemma pool_calls_interleaved tasks :
  interleaved (map (fun i => events self w "init" i None) tasks)
              (pool_calls self w tasks).
Proof. apply interleave_interleaved. Qed.

Lemma pool_calls_Permutation tasks :
  Permutation (pool_calls self w tasks)
              (flat_map (fun i => events self w "init" i None) tasks).
Proof.
  rewrite flat_map_concat_map.
  apply interleaved_Permutation, pool_calls_interleaved.
Qed.

Lemma executor_run tasks tr :
  executor self w tasks tr =
  if max_threads self <=? 0 then (Raise ValueError, tr)
  else (Ok (pool_futures self w (as_completed w tasks)),
        tr ++ pool_calls self w tasks).
Proof. unfold executor. destruct (max_threads self <=? 0); reflexivity. Qed.

(** What a full load does, read off the code. *)
Lemma download_all_data_run tr :
  download_all_data self w tr =
  let seed := tr ++ events self w "update" 0 None in
  match outcome self w "update" 0 None with
  | Raise e => (Raise e, seed)
  | Ok initial_response =>
      match total_results_of initial_response with
      | Raise e => (Raise e, seed)
      | Ok total_results =>
          if results_per_page self =? 0 then (Raise ZeroDivisionError, seed)
          else if max_threads self <=? 0 then (Raise ValueError, seed)
          else
            let tasks := submitted self (num_pages self total_results) in
            let ran := seed ++ pool_calls self w tasks in
            match collect (pool_futures self w (as_completed w tasks)) [] with
            | Raise e => (Raise e, ran)
            | Ok all_vulnerabilities =>
                (Ok tt,
                 ran ++
                 EnsureIndexOnId "cve" "id" ::
                 (if save_data self && writable w "data/nvd_all.json"
                  then [Write2Json "data/nvd_all.json"
                          (json_dump (JArr all_vulnerabilities))]
                  else []))
            end
      end
  end.
Proof.
  unfold download_all_data, bind at 1.
  rewrite make_request_run.
  destruct (outcome self w "update" 0 None) as [data|e] eqn:E; [|reflexivity].
  destruct (outcome_ok _ _ _ _ E) as [_ [vs Hvs]].
  destruct (vulnerabilities_of_ok _ _ Hvs) as [listing [vuls [Hl _]]].
  unfold bind at 1, lift at 1. rewrite Hl.
  unfold total_results_of.
  unfold bind at 1, lift at 1.
  destruct (json_get data "totalResults" (JNum 0)) as [t|e]; simpl; [|reflexivity].
  unfold bind at 1, lift at 1.
  destruct (as_int t) as [total|e]; simpl; [|reflexivity].
  unfold bind at 1.
  destruct (results_per_page self =? 0); [reflexivity|].
  unfold ret at 1, bind at 1.
  rewrite executor_run.
  destruct (max_threads self <=? 0); [reflexivity|].
  unfold bind at 1, lift at 1.
  destruct (collect _ []) as [all|e]; [|reflexivity].
  unfold bind, emit, write2json, emit, ret.
  destruct (save_data self); simpl; [|rewrite <- ?app_assoc; reflexivity].
  destruct (writable w "data/nvd_all.json"); simpl; rewrite <- ?app_assoc;
    rewrite ?app_nil_r; reflexivity.
Qed.

(** What an incremental sync does, read off the code. *)
Lemma get_updates_run last_hours follow tr :
  get_updates self w last_hours follow tr =
  match lastModStartDate w last_hours with
  | Raise e => (Raise e, tr)
  | Ok start =>
      let custom_params := Some (window_params w start) in
      let seed := tr ++ events self w "update" 0 custom_params in
      match outcome self w "update" 0 custom_params with
      | Raise e => (Raise e, seed)
      | Ok updates =>
          (Ok tt,
           seed ++ (if save_data self && writable w "data/nvd_update.json"
                    then [Write2Json "data/nvd_update.json" (json_dump updates)]
                    else []))
      end
  end.
Proof.
  unfold get_updates, bind at 1, lift at 1.
  destruct (lastModStartDate w last_hours) as [start|e]; [|reflexivity].
  unfold bind. fold (window_params w start). rewrite make_request_run.
  destruct (outcome _ _ _ _ _) as [updates|e]; [|reflexivity].
  destruct (save_data self); unfold write2json, emit, ret; simpl;
    [|rewrite ?app_nil_r; reflexivity].
  destruct (writable w "data/nvd_update.json"); simpl; rewrite ?app_nil_r;
    reflexivity.
Qed.

End Facts.

(** ** The number of pages (lines 115-116, 125-126) *)

Lemma num_pages_bounds self total_results :
  0 < results_per_page self ->
  (num_pages self total_results - 1) * results_per_page self < total_results
  /\ total_results <= num_pages self total_results * results_per_page self.
Proof.
  unfold num_pages. intros Hpos.
  set (r := results_per_page self) in *.
  pose proof (Z.div_mod (total_results + r - 1) r ltac:(lia)) as Hdm.
  pose proof (Z.mod_pos_bound (total_results + r - 1) r Hpos) as Hb.
  nia.
Qed.





(** ** The requests of a full load (lines 112-126) *)

Section Requests.

Variable self : NvdHandler.
Variable w : world.

Lemma requested_app tr1 tr2 : requested (tr1 ++ tr2) = requested tr1 ++ requested tr2.
Proof. unfold requested. apply flat_map_app. Qed.

Lemma requested_the_write step vulnerabilities :
  requested [the_write step vulnerabilities] = [].
Proof. unfold the_write. destruct (String.eqb _ _); reflexivity. Qed.

Lemma requested_events step start_index custom_params :
  requested (events self w step start_index custom_params) =
  [full_url self start_index custom_params].
Proof.
  rewrite events_eq.
  destruct (records _ _ _ _) as [|v vs]; [reflexivity|].
  change (the_get self start_index custom_params :: [the_write step (v :: vs); UpdateStatus "nvd"])
    with ([the_get self start_index custom_params] ++ [the_write step (v :: vs)] ++ [UpdateStatus "nvd"]).
  rewrite !requested_app, requested_the_write. reflexivity.
Qed.

Lemma requested_pool tasks :
  Permutation (requested (pool_calls self w tasks))
              (map (fun i => full_url self i None) tasks).
Proof.
  unfold requested at 1. rewrite (pool_calls_Permutation self w tasks).
  fold (requested (flat_map (fun i => events self w "init" i None) tasks)).
  induction tasks as [|i rest IH]; [reflexivity|].
  simpl. rewrite requested_app, requested_events. simpl.
  constructor. exact IH.
Qed.

Lemma download_all_data_requested tr initial_response total_results :
  outcome self w "update" 0 None = Ok initial_response ->
  total_results_of initial_response = Ok total_results ->
  results_per_page self <> 0 ->
  0 < max_threads self ->
  requested (snd (download_all_data self w tr)) =
  requested tr ++
  full_url self 0 None ::
  requested (pool_calls self w (submitted self (num_pages self total_results))).
Proof.
  intros Hseed Htotal Hrpp Hthreads.
  rewrite download_all_data_run; cbv zeta. rewrite Hseed, Htotal.
  destruct (Z.eqb_spec (results_per_page self) 0) as [E|_]; [contradiction|].
  destruct (Z.leb_spec (max_threads self) 0) as [E|_]; [lia|].
  destruct (collect _ _) as [all|e]; simpl snd;
    rewrite ?requested_app, requested_events.
  - destruct (save_data self && writable w "data/nvd_all.json"); simpl;
      rewrite app_nil_r, <- app_assoc; reflexivity.
  - rewrite <- app_assoc; reflexivity.
Qed.


Lemma full_url_inj i j :
  full_url self i None = full_url self j None -> i = j.
Proof. unfold full_url, request_params. intros H. inversion H. reflexivity. Qed.



End Requests.





(** ** A page without records (lines 93-107) *)

Lemma store_calls_app tr1 tr2 :
  store_calls (tr1 ++ tr2) = store_calls tr1 ++ store_calls tr2.
Proof. unfold store_calls. apply filter_app. Qed.

Lemma checkpoint_calls_app tr1 tr2 :
  checkpoint_calls (tr1 ++ tr2) = (checkpoint_calls tr1 + checkpoint_calls tr2)%nat.
Proof. unfold checkpoint_calls. rewrite filter_app, length_app. reflexivity. Qed.

(** C10: when the fetched page decodes to an empty list of records,
    [make_request] makes no call on the store, neither insert nor upsert
    nor status update: after the request, the trace holds the calls on the
    store that it held before, and the decoded page is returned. *)
Theorem empty_page_leaves_store_unchanged
    self w step start_index custom_params tr data :
  fetched self w start_index custom_params = Ok data ->
  vulnerabilities_of data = Ok [] ->
  make_request self w step start_index custom_params tr =
    (Ok data, tr ++ [the_get self start_index custom_params])
  /\ store_calls (snd (make_request self w step start_index custom_params tr)) =
     store_calls tr
  /\ checkpoint_calls (snd (make_request self w step start_index custom_params tr)) =
     checkpoint_calls tr.
Proof.
  intros Hfetch Hempty.
  assert (E : make_request self w step start_index custom_params tr =
              (Ok data, tr ++ [the_get self start_index custom_params])).
  { rewrite make_request_run, outcome_eq, events_eq. unfold records.
    rewrite Hfetch. simpl. rewrite Hempty. reflexivity. }
  rewrite E. simpl snd.
  rewrite store_calls_app, checkpoint_calls_app. simpl.
  rewrite app_nil_r, Nat.add_0_r. auto.
Qed.

Lemma empty_page_leaves_store_unchanged_witness :
  make_request Sample.handler (Sample.world_of Sample.empty_source None) "init" 0 None
    [UpdateStatus "nvd"] =
  (Ok (JObj [("totalResults", JNum 0); ("vulnerabilities", JArr [])]),
   [UpdateStatus "nvd"; the_get Sample.handler 0 None]).
Proof.
  exact (proj1 (empty_page_leaves_store_unchanged
                  Sample.handler (Sample.world_of Sample.empty_source None)
                  "init" 0 None [UpdateStatus "nvd"]
                  (JObj [("totalResults", JNum 0); ("vulnerabilities", JArr [])])
                  eq_refl eq_refl)).
Defined.

(** ** A page fetch that fails (lines 82-89, 128-132) *)

Section Failure.

Variable self : NvdHandler.
Variable w : world.




(** It raises as soon as one of them has. *)
Lemma collect_some_failure futures e :
  In (Raise e) futures ->
  forall all_vulnerabilities,
    exists e', collect futures all_vulnerabilities = Raise e'.
Proof.
  induction futures as [|future rest IH]; intros Hin acc; [contradiction|].
  simpl. destruct future as [data|e0]; simpl; [|exists e0; reflexivity].
  destruct Hin as [Hin|Hin]; [discriminate|].
  destruct (json_get data "vulnerabilities" (JArr [])) as [listing|e1]; simpl;
    [|exists e1; reflexivity].
  destruct (iter listing) as [vuls|e2]; simpl; [|exists e2; reflexivity].
  apply IH. exact Hin.
Qed.



End Failure.



(** ** The result of a fetch (lines 79-96) *)

Section Fetch.

Variable self : NvdHandler.
Variable w : world.

Lemma fetched_eq start_index custom_params :
  fetched self w start_index custom_params =
  let full_url := full_url self start_index custom_params in
  let response := http_get w (mkRequest full_url (request_headers self)) in
  if status_code response =? 200 then
    match json_body response with
    | Some data => Ok data
    | None => Raise (ParseError full_url)
    end
  else Raise (HttpError (status_code response) full_url).
Proof.
  unfold fetched, make_request_limited, bind, emit, raise, ret; simpl.
  destruct (status_code _ =? 200); simpl; [|reflexivity].
  destruct (json_body _); reflexivity.
Qed.

(** Decoding the records of a page raises nothing but what the
    interpreter raises on a value of the wrong shape. *)
Lemma cve_of_each_raise vuls e :
  cve_of_each vuls = Raise e -> e = AttributeError.
Proof.
  induction vuls as [|vul rest IH]; simpl; [discriminate|].
  destruct vul; simpl; try (intros H; inversion H; reflexivity).
  destruct (get "cve" fields); simpl;
    (destruct (cve_of_each rest) as [cves|e']; simpl;
     [discriminate | intros H; inversion H; subst; apply IH; reflexivity]).
Qed.

Lemma vulnerabilities_of_raise data e :
  vulnerabilities_of data = Raise e -> e = AttributeError \/ e = TypeError.
Proof.
  unfold vulnerabilities_of.
  destruct data; simpl; try (intros H; inversion H; left; reflexivity).
  destruct (get "vulnerabilities" fields) as [listing|]; simpl.
  - destruct listing; simpl; try (intros H; inversion H; right; reflexivity);
      intros H; left; eapply cve_of_each_raise; exact H.
  - discriminate.
Qed.

(** An entry without the [cve] key gives the empty object as its record. *)
Lemma cve_of_each_missing fields rest :
  get "cve" fields = None ->
  cve_of_each (JObj fields :: rest) =
  rbind (cve_of_each rest) (fun cves => Ok (JObj [] :: cves)).
Proof. intros H. simpl. rewrite H. reflexivity. Qed.

End Fetch.

(** C4, as the code has it: the fetch returns the decoded page exactly
    when the status is 200 and the body is JSON; every status other than
    200, so every status outside 2xx and also 201 to 299, raises the error
    that carries the status and the full URL; a 200 answer whose body is
    no JSON raises the error that carries the URL; an entry of the page
    without the envelope key is no error, its record is the empty object,
    and decoding a fetched page never raises the parse error. *)
Theorem fetch_result self w start_index custom_params :
  let url := full_url self start_index custom_params in
  let response := http_get w (mkRequest url (request_headers self)) in
  (forall data,
      fetched self w start_index custom_params = Ok data <->
      status_code response = 200 /\ json_body response = Some data)
  /\ (status_code response <> 200 ->
      fetched self w start_index custom_params =
      Raise (HttpError (status_code response) url))
  /\ (status_code response = 200 -> json_body response = None ->
      fetched self w start_index custom_params = Raise (ParseError url))
  /\ (forall fields rest cves,
      get "cve" fields = None -> cve_of_each rest = Ok cves ->
      cve_of_each (JObj fields :: rest) = Ok (JObj [] :: cves))
  /\ (forall step data,
      fetched self w start_index custom_params = Ok data ->
      outcome self w step start_index custom_params = Ok data
      \/ outcome self w step start_index custom_params = Raise AttributeError
      \/ outcome self w step start_index custom_params = Raise TypeError).
Proof.
  intros url response.
  pose proof (fetched_eq self w start_index custom_params) as E.
  cbv zeta in E. fold url in E. fold response in E.
  split; [|split; [|split; [|split]]].
  - intros data. split.
    + intros H. rewrite E in H.
      destruct (Z.eqb_spec (status_code response) 200) as [H200|]; [|discriminate].
      split; [exact H200|].
      destruct (json_body response); [inversion H; reflexivity | discriminate].
    + intros [H200 Hbody]. rewrite E, H200, Hbody. reflexivity.
  - intros Hne. rewrite E.
    destruct (Z.eqb_spec (status_code response) 200); [contradiction|reflexivity].
  - intros H200 Hbody. rewrite E, H200, Hbody. reflexivity.
  - intros fields rest cves Hget Hrest.
    rewrite cve_of_each_missing by exact Hget. rewrite Hrest. reflexivity.
  - intros step data Hfetch. rewrite outcome_eq, Hfetch. simpl.
    destruct (vulnerabilities_of data) as [vs|e] eqn:Hv; simpl; [left; reflexivity|].
    right. destruct (vulnerabilities_of_raise _ _ Hv) as [->| ->]; auto.
Qed.

Lemma fetch_result_witness :
  fetched Sample.handler (Sample.world_of Sample.created_source None) 0 None
  = Raise (HttpError 201 (full_url Sample.handler 0 None)).
Proof.
  apply (proj1 (proj2 (fetch_result Sample.handler
                         (Sample.world_of Sample.created_source None) 0 None))).
  simpl. lia.
Defined.

(** C4, as the specification has it, fails on a 2xx answer in two ways: a
    200 answer whose entry has no envelope key raises nothing, the page
    is returned and the empty record is written; a 201 answer whose body
    is no JSON raises the status error, not the parse error. *)
Lemma parse_error_counterexample :
  status_code (Sample.bare_source
                 (mkRequest (full_url Sample.handler 0 None)
                            (request_headers Sample.handler))) = 200
  /\ make_request Sample.handler (Sample.world_of Sample.bare_source None)
       "update" 0 None [] =
     (Ok (JObj [("totalResults", JNum 1);
                ("vulnerabilities", JArr [JObj [("id", JStr "CVE-1")]])]),
      [the_get Sample.handler 0 None; BulkWrite "cve" [JObj []]; UpdateStatus "nvd"])
  /\ fst (make_request Sample.handler (Sample.world_of Sample.bare_source None)
            "update" 0 None [])
     <> Raise (ParseError (full_url Sample.handler 0 None))
  /\ status_code (Sample.created_source
                    (mkRequest (full_url Sample.handler 0 None)
                               (request_headers Sample.handler))) = 201
  /\ json_body (Sample.created_source
                  (mkRequest (full_url Sample.handler 0 None)
                             (request_headers Sample.handler))) = None
  /\ fst (make_request Sample.handler (Sample.world_of Sample.created_source None)
            "update" 0 None [])
     = Raise (HttpError 201 (full_url Sample.handler 0 None))
  /\ fst (make_request Sample.handler (Sample.world_of Sample.created_source None)
            "update" 0 None [])
     <> Raise (ParseError (full_url Sample.handler 0 None)).
Proof.
  repeat split; try reflexivity; vm_compute; discriminate.
Qed.

(** ** The checkpoint (lines 98-104) *)

Section Checkpoint.

Variable self : NvdHandler.
Variable w : world.

Lemma checkpoint_calls_the_write step vulnerabilities :
  is_checkpoint (the_write step vulnerabilities) = false.
Proof. unfold the_write. destruct (String.eqb _ _); reflexivity. Qed.

Lemma events_records step start_index custom_params :
  events self w step start_index custom_params =
  the_get self start_index custom_params ::
  (if has_records self w start_index custom_params
   then [the_write step (records self w start_index custom_params);
         UpdateStatus "nvd"]
   else []).
Proof.
  rewrite events_eq. unfold has_records.
  destruct (records _ _ _ _); reflexivity.
Qed.

Lemma checkpoint_calls_events step start_index custom_params :
  checkpoint_calls (events self w step start_index custom_params) =
  b2n (has_records self w start_index custom_params).
Proof.
  rewrite events_records. unfold checkpoint_calls.
  destruct (has_records _ _ _ _); simpl; [|reflexivity].
  rewrite checkpoint_calls_the_write. reflexivity.
Qed.

Lemma filter_Permutation (f : event -> bool) (l l' : trace) :
  Permutation l l' -> Permutation (filter f l) (filter f l').
Proof.
  induction 1 as [|x l l' _ IH|x y l|l l' l'' _ IH1 _ IH2]; simpl.
  - constructor.
  - destruct (f x); [constructor|]; exact IH.
  - destruct (f x), (f y); try reflexivity. apply perm_swap.
  - exact (perm_trans IH1 IH2).
Qed.

Lemma checkpoint_calls_pool tasks :
  checkpoint_calls (pool_calls self w tasks) =
  List.length (filter (fun i => has_records self w i None) tasks).
Proof.
  unfold checkpoint_calls at 1.
  rewrite (Permutation_length
             (filter_Permutation is_checkpoint _ _ (pool_calls_Permutation self w tasks))).
  fold (checkpoint_calls (flat_map (fun i => events self w "init" i None) tasks)).
  induction tasks as [|i rest IH]; [reflexivity|].
  simpl flat_map. rewrite checkpoint_calls_app, checkpoint_calls_events, IH.
  simpl filter. destruct (has_records _ _ _ _); reflexivity.
Qed.

Lemma In_pool_calls_get i tasks :
  In i tasks -> In (the_get self i None) (pool_calls self w tasks).
Proof.
  intros Hin.
  apply (Permutation_in _ (Permutation_sym (pool_calls_Permutation self w tasks))).
  apply in_flat_map. exists i. split; [exact Hin|].
  rewrite events_eq. left. reflexivity.
Qed.

End Checkpoint.

(** C2, as the code has it: the status update for the source is called by
    [make_request], right after the write of a fetched page that has
    records, and at no other place; the call names the source and passes
    no time.  So a full load whose pool can be built calls it once for
    each page with records, the seed page included, and the call for the
    seed page comes before the request of every other page; when the pool
    cannot be built, the call for the seed page is the only one.  An
    incremental sync calls it once when its page has records and not at
    all when the page has none, also when the sync ends well.  A page whose
    fetch or decoding raises calls it not. *)
Theorem checkpoint_follows_each_page_with_records self w :
  (forall step start_index custom_params tr,
      snd (make_request self w step start_index custom_params tr) =
      tr ++ the_get self start_index custom_params ::
            (if has_records self w start_index custom_params
             then [the_write step (records self w start_index custom_params);
                   UpdateStatus "nvd"]
             else []))
  /\ (forall start_index custom_params e,
      rbind (fetched self w start_index custom_params) vulnerabilities_of = Raise e ->
      has_records self w start_index custom_params = false)
  /\ (forall tr initial_response total_results,
      outcome self w "update" 0 None = Ok initial_response ->
      total_results_of initial_response = Ok total_results ->
      results_per_page self <> 0 ->
      (0 < max_threads self ->
       checkpoint_calls (snd (download_all_data self w tr)) =
       (checkpoint_calls tr + b2n (has_records self w 0 None)
        + List.length (filter (fun i => has_records self w i None)
                         (submitted self (num_pages self total_results))))%nat)
      /\ (max_threads self <= 0 ->
          checkpoint_calls (snd (download_all_data self w tr)) =
          (checkpoint_calls tr + b2n (has_records self w 0 None))%nat))
  /\ (forall tr initial_response total_results v vs,
      outcome self w "update" 0 None = Ok initial_response ->
      total_results_of initial_response = Ok total_results ->
      results_per_page self <> 0 ->
      0 < max_threads self ->
      records self w 0 None = v :: vs ->
      exists pool rest,
        snd (download_all_data self w tr) =
        tr ++ [the_get self 0 None; BulkWrite "cve" (v :: vs); UpdateStatus "nvd"]
           ++ pool ++ rest
        /\ (forall i, In i (submitted self (num_pages self total_results)) ->
              In (the_get self i None) pool))
  /\ (forall tr last_hours follow start,
      lastModStartDate w last_hours = Ok start ->
      checkpoint_calls (snd (get_updates self w last_hours follow tr)) =
      (checkpoint_calls tr
       + b2n (has_records self w 0 (Some (window_params w start))))%nat).
Proof.
  split; [|split; [|split; [|split]]].
  - intros step start_index custom_params tr.
    rewrite make_request_run, events_records. reflexivity.
  - intros start_index custom_params e H. unfold has_records, records.
    rewrite H. reflexivity.
  - intros tr initial_response total_results Hseed Htotal Hrpp.
    rewrite download_all_data_run; cbv zeta. rewrite Hseed, Htotal.
    destruct (Z.eqb_spec (results_per_page self) 0) as [E|_]; [contradiction|].
    split; intros Hthreads.
    + destruct (Z.leb_spec (max_threads self) 0) as [E|_]; [lia|].
      destruct (collect _ _) as [all|e]; simpl snd;
        rewrite ?checkpoint_calls_app, checkpoint_calls_events, checkpoint_calls_pool;
        [|reflexivity].
      destruct (save_data self && writable w "data/nvd_all.json");
        unfold checkpoint_calls; simpl; lia.
    + destruct (Z.leb_spec (max_threads self) 0) as [_|E]; [|lia].
      simpl snd. rewrite checkpoint_calls_app, checkpoint_calls_events. reflexivity.
  - intros tr initial_response total_results v vs Hseed Htotal Hrpp Hthreads Hrec.
    rewrite download_all_data_run; cbv zeta. rewrite Hseed, Htotal.
    destruct (Z.eqb_spec (results_per_page self) 0) as [E|_]; [contradiction|].
    destruct (Z.leb_spec (max_threads self) 0) as [E|_]; [lia|].
    assert (Hev : events self w "update" 0 None =
                  [the_get self 0 None; BulkWrite "cve" (v :: vs); UpdateStatus "nvd"]).
    { rewrite events_eq, Hrec. reflexivity. }
    exists (pool_calls self w (submitted self (num_pages self total_results))).
    destruct (collect _ _) as [all|e]; simpl snd; rewrite Hev.
    + eexists. rewrite <- !app_assoc. split; [reflexivity|].
      intros i Hi. apply In_pool_calls_get. exact Hi.
    + exists []. rewrite <- !app_assoc, app_nil_r. split; [reflexivity|].
      intros i Hi. apply In_pool_calls_get. exact Hi.
  - intros tr last_hours follow start Hstart.
    rewrite get_updates_run; cbv zeta. rewrite Hstart.
    destruct (outcome _ _ _ _ _); simpl snd;
      rewrite ?checkpoint_calls_app, checkpoint_calls_events.
    + destruct (save_data self && writable w "data/nvd_update.json");
        unfold checkpoint_calls; simpl; lia.
    + reflexivity.
Qed.

Lemma checkpoint_follows_each_page_with_records_witness :
  checkpoint_calls
    (snd (download_all_data Sample.built (Sample.world_of Sample.source None) []))
  = 3%nat.
Proof.
  rewrite (proj1 (proj1 (proj2 (proj2 (checkpoint_follows_each_page_with_records
                                  Sample.built (Sample.world_of Sample.source None))))
             []
             (JObj [("totalResults", JNum 5);
                    ("vulnerabilities", JArr [Sample.entry "CVE-1"; Sample.entry "CVE-2"])])
             5 eq_refl eq_refl ltac:(discriminate)) eq_refl).
  reflexivity.
Defined.

Lemma full_load_checkpoint_counterexample :
  download_all_data Sample.built (Sample.world_of Sample.source None) [] =
  (Ok tt,
   [the_get Sample.built 0 None;
    BulkWrite "cve" [JObj [("id", JStr "CVE-1")]; JObj [("id", JStr "CVE-2")]];
    UpdateStatus "nvd";
    the_get Sample.built 2 None;
    the_get Sample.built 4 None;
    InsertMany "cve" [JObj [("id", JStr "CVE-5")]];
    InsertMany "cve" [JObj [("id", JStr "CVE-3")]; JObj [("id", JStr "CVE-4")]];
    UpdateStatus "nvd";
    UpdateStatus "nvd";
    EnsureIndexOnId "cve" "id"])
  /\ checkpoint_calls
       (snd (download_all_data Sample.built (Sample.world_of Sample.source None) []))
     = 3%nat
  /\ get_updates Sample.built (Sample.world_of Sample.empty_source None) None true [] =
     (Ok tt,
      [the_get Sample.built 0
         (Some [("lastModStartDate", PStr "2023-11-02T12:34:56Z");
                ("lastModEndDate", PStr "2023-11-03T12:34:56Z")])])
  /\ checkpoint_calls
       (snd (get_updates Sample.built (Sample.world_of Sample.empty_source None)
               None true []))
     = 0%nat.
Proof. repeat split; reflexivity. Qed.
(** ** The rate limit in force (lines 37-40, 66-67) *)

Lemma limits_used_app tr1 tr2 :
  limits_used (tr1 ++ tr2) = limits_used tr1 ++ limits_used tr2.
Proof. unfold limits_used. apply flat_map_app. Qed.

Lemma limits_used_the_write step vulnerabilities :
  limits_used [the_write step vulnerabilities] = [].
Proof. unfold the_write. destruct (String.eqb _ _); reflexivity. Qed.

(** C3 on the code: every request is issued under
    [limits(calls=self.api_rate_limit, period=self.rolling_window)],
    whether an API key is configured or not; [public_rate_limit] is read
    from the configuration and used nowhere.  With nothing configured, so
    with no key, the limit in force is 50 calls in 30 seconds, not 5. *)
Theorem rate_limit_ignores_credential :
  (forall self w step start_index custom_params tr,
      limits_used (snd (make_request self w step start_index custom_params tr)) =
      limits_used tr ++ [(api_rate_limit self, rolling_window self)])
  /\ api_key (init Sample.unconfigured) = ""
  /\ request_headers (init Sample.unconfigured) = []
  /\ public_rate_limit (init Sample.unconfigured) = 5
  /\ limits_used
       (snd (make_request (init Sample.unconfigured)
               (Sample.world_of Sample.source None) "update" 0 None []))
     = [(50, 30)].
Proof.
  split; [|repeat split; reflexivity].
  intros self w step start_index custom_params tr.
  rewrite make_request_run, events_records. simpl snd.
  rewrite limits_used_app. f_equal.
  destruct (has_records _ _ _ _); [|reflexivity].
  change (the_get self start_index custom_params ::
          [the_write step (records self w start_index custom_params); UpdateStatus "nvd"])
    with ([the_get self start_index custom_params] ++
          [the_write step (records self w start_index custom_params)] ++
          [UpdateStatus "nvd"]).
  rewrite !limits_used_app, limits_used_the_write. reflexivity.
Qed.

(** ** The pages of an incremental sync (lines 140-173) *)

(** C1 on the code: an incremental sync calls [make_request] once, with
    start index 0, and requests no further page whatever [totalResults]
    says.  On a source that holds five records for the window, with pages
    of two, the run ends well having requested one page and written two
    records, and the status update is called. *)
Theorem incremental_sync_requests_one_page :
  (forall self w last_hours follow tr,
      requested (snd (get_updates self w last_hours follow tr)) =
      requested tr ++
      match lastModStartDate w last_hours with
      | Ok start => [full_url self 0 (Some (window_params w start))]
      | Raise _ => []
      end)
  /\ total_results_of
       (JObj [("totalResults", JNum 5);
              ("vulnerabilities", JArr [Sample.entry "CVE-1"; Sample.entry "CVE-2"])])
     = Ok 5
  /\ get_updates Sample.handler
       (Sample.world_of Sample.source (Some Sample.checkpoint)) None true [] =
     (Ok tt,
      [the_get Sample.handler 0
         (Some [("lastModStartDate", PStr "2023-11-01T00:00:00Z");
                ("lastModEndDate", PStr "2023-11-03T12:34:56Z")]);
       BulkWrite "cve" [JObj [("id", JStr "CVE-1")]; JObj [("id", JStr "CVE-2")]];
       UpdateStatus "nvd";
       Write2Json "data/nvd_update.json"
         (JObj [("totalResults", JNum 5);
                ("vulnerabilities", JArr [Sample.entry "CVE-1"; Sample.entry "CVE-2"])])]).
Proof.
  split; [|split; reflexivity].
  intros self w last_hours follow tr.
  rewrite get_updates_run; cbv zeta.
  destruct (lastModStartDate w last_hours) as [start|e];
    [|simpl; rewrite app_nil_r; reflexivity].
  destruct (outcome _ _ _ _ _); simpl snd;
    rewrite ?requested_app, requested_events; [|reflexivity].
  destruct (save_data self && writable w "data/nvd_update.json");
    simpl; rewrite app_nil_r; reflexivity.
Qed.

(** ** The snapshot of a full load (lines 118-137) *)

Lemma files_app tr1 tr2 : files (tr1 ++ tr2) = files tr1 ++ files tr2.
Proof. unfold files. apply flat_map_app. Qed.

Lemma files_events self w step start_index custom_params :
  files (events self w step start_index custom_params) = [].
Proof.
  rewrite events_records. destruct (has_records _ _ _ _); [|reflexivity].
  unfold the_write. destruct (String.eqb _ _); reflexivity.
Qed.

Lemma files_Permutation tr1 tr2 :
  Permutation tr1 tr2 -> Permutation (files tr1) (files tr2).
Proof. intros H. unfold files. apply Permutation_flat_map. exact H. Qed.

Lemma files_pool self w tasks : files (pool_calls self w tasks) = [].
Proof.
  apply Permutation_nil, Permutation_sym.
  apply (perm_trans (files_Permutation _ _ (pool_calls_Permutation self w tasks))).
  induction tasks as [|i rest IH]; [constructor|].
  simpl flat_map. rewrite files_app, files_events. exact IH.
Qed.

(** The files of a full load: the one of line 137, when it is written. *)
Lemma files_download_all_data self w tr :
  files (snd (download_all_data self w tr)) =
  files tr ++
  match outcome self w "update" 0 None with
  | Raise _ => []
  | Ok initial_response =>
      match total_results_of initial_response with
      | Raise _ => []
      | Ok total_results =>
          if (results_per_page self =? 0) || (max_threads self <=? 0) then []
          else
            match collect (pool_futures self w
                             (as_completed w
                                (submitted self (num_pages self total_results)))) []
            with
            | Raise _ => []
            | Ok all_vulnerabilities =>
                if save_data self && writable w "data/nvd_all.json"
                then [("data/nvd_all.json", json_dump (JArr all_vulnerabilities))]
                else []
            end
      end
  end.
Proof.
  rewrite download_all_data_run; cbv zeta.
  destruct (outcome self w "update" 0 None) as [data|e];
    [|simpl; rewrite files_app, files_events; reflexivity].
  destruct (total_results_of data) as [total|e];
    [|simpl; rewrite files_app, files_events; reflexivity].
  destruct (results_per_page self =? 0);
    [simpl; rewrite files_app, files_events; reflexivity|].
  destruct (max_threads self <=? 0);
    [simpl; rewrite files_app, files_events; reflexivity|].
  simpl orb. cbv iota.
  destruct (collect _ _) as [all|e]; simpl snd;
    rewrite !files_app, files_events, files_pool, ?app_nil_r; [|reflexivity].
  destruct (save_data self && writable w "data/nvd_all.json"); reflexivity.
Qed.



(** ** The window of an incremental sync (lines 142-153) *)

Section Timestamp.








End Timestamp.





(** * Further properties of the code *)

(** ** The singleton decorator *)

Section SingletonFacts.

Variables Args Instance : Type.
Variable cls : Args -> result Instance.

Lemma calls_once_built instance arguments :
  Singleton.calls cls arguments (Some instance) =
  (map (fun _ => Ok instance) arguments, Some instance).
Proof.
  induction arguments as [|args rest IH]; simpl; [reflexivity|].
  rewrite IH. reflexivity.
Qed.

End SingletonFacts.

(** X1: a class under [singleton] is built by the first call that does not
    raise, and every later call returns that instance, whatever its
    arguments: they are not looked at.  A call whose construction raises
    stores nothing, so that the next call builds again. *)
Theorem singleton_first_instance_wins
    (Args Instance : Type) (cls : Args -> result Instance) args arguments :
  (forall instance,
      cls args = Ok instance ->
      Singleton.calls cls (args :: arguments) None =
      (Ok instance :: map (fun _ => Ok instance) arguments, Some instance))
  /\ (forall e,
      cls args = Raise e ->
      Singleton.calls cls (args :: arguments) None =
      (Raise e :: fst (Singleton.calls cls arguments None),
       snd (Singleton.calls cls arguments None))).
Proof.
  split.
  - intros instance H. simpl. rewrite H, calls_once_built. reflexivity.
  - intros e H. simpl. rewrite H.
    destruct (Singleton.calls cls arguments None). reflexivity.
Qed.

Lemma singleton_first_instance_wins_witness :
  Singleton.calls (fun cfg => Ok (init cfg))
    [Sample.unconfigured;
     mkConfig None (Some "key") None None None None None (Some 100) None None] None
  = ([Ok (init Sample.unconfigured); Ok (init Sample.unconfigured)],
     Some (init Sample.unconfigured)).
Proof.
  exact (proj1 (singleton_first_instance_wins
                  nvd_config NvdHandler (fun cfg => Ok (init cfg))
                  Sample.unconfigured
                  [mkConfig None (Some "key") None None None None None (Some 100) None None])
               (init Sample.unconfigured) eq_refl).
Defined.

(** ** One request for each call (lines 41-42, 64-91) *)



(** ** The parameters of a request (lines 69-74) *)

Section Params.

Context {A : Type}.

Lemma get_set (k k' : string) (v : A) (d : dict A) :
  get k (set k' v d) = if String.eqb k k' then Some v else get k d.
Proof.
  induction d as [|[k0 v0] d IH]; simpl.
  - reflexivity.
  - destruct (String.eqb_spec k' k0) as [->|Hne]; simpl.
    + destruct (String.eqb k k0); reflexivity.
    + rewrite IH. destruct (String.eqb_spec k k0) as [->|Hne'].
      * destruct (String.eqb_spec k0 k') as [E|_]; [congruence|reflexivity].
      * reflexivity.
Qed.

Lemma get_update_cons (k : string) (d : dict A) k' v other :
  ~ In k' (map fst other) ->
  (forall d', get k (update d' other) =
              match get k other with Some x => Some x | None => get k d' end) ->
  get k (update d ((k', v) :: other)) =
  match get k ((k', v) :: other) with Some x => Some x | None => get k d end.
Proof.
  intros Hnotin IH. change (update d ((k', v) :: other)) with (update (set k' v d) other).
  rewrite IH, get_set. simpl get.
  destruct (String.eqb_spec k k') as [->|Hne]; [|reflexivity].
  destruct (get k' other) eqn:E; [|reflexivity].
  exfalso. apply Hnotin. clear -E.
  induction other as [|[k0 v0] other IH]; simpl in *; [discriminate|].
  destruct (String.eqb_spec k' k0) as [->|Hne]; [left; reflexivity|].
  right. apply IH. exact E.
Qed.

(** [d.update(other)] then [get]: the value of [other] when it has the
    key, that of [d] when not. *)
Lemma get_update (k : string) (d other : dict A) :
  NoDup (map fst other) ->
  get k (update d other) =
  match get k other with Some x => Some x | None => get k d end.
Proof.
  intros Hnodup. revert d.
  induction other as [|[k' v] other IH]; intros d.
  - reflexivity.
  - inversion Hnodup as [|? ? Hnotin Hrest]; subst.
    apply get_update_cons; [exact Hnotin|].
    intros d'. apply IH. exact Hrest.
Qed.

Lemma set_keeps_first_two k1 k2 (v1 v2 : A) rest k v :
  exists v1' v2' rest',
    set k v ((k1, v1) :: (k2, v2) :: rest) = (k1, v1') :: (k2, v2') :: rest'.
Proof.
  simpl. destruct (String.eqb_spec k k1) as [->|H1]; [eauto|].
  destruct (String.eqb_spec k k2) as [->|H2]; eauto.
Qed.

Lemma update_cons (d : dict A) k v other :
  update d ((k, v) :: other) = update (set k v d) other.
Proof. reflexivity. Qed.

Lemma update_keeps_first_two other k1 k2 (v1 v2 : A) rest :
  exists v1' v2' rest',
    update ((k1, v1) :: (k2, v2) :: rest) other = (k1, v1') :: (k2, v2') :: rest'.
Proof.
  revert v1 v2 rest. induction other as [|[k v] other IH]; intros v1 v2 rest.
  - exists v1, v2, rest. reflexivity.
  - rewrite update_cons.
    destruct (set_keeps_first_two k1 k2 v1 v2 rest k v) as [v1' [v2' [rest' E]]].
    rewrite E. apply IH.
Qed.

End Params.

(** X3: the query of a request starts with [resultsPerPage] and
    [startIndex], in that order, whatever the custom parameters; a custom
    parameter of one of these two names takes the place of the handler's
    value, and any other is added after them.  So the value found under a
    key is the custom one when there is one, and the handler's when not. *)
Theorem custom_params_override self start_index custom_params k :
  NoDup (map fst custom_params) ->
  get k (request_params self start_index (Some custom_params)) =
    match get k custom_params with
    | Some v => Some v
    | None => get k [("resultsPerPage", PInt (results_per_page self));
                     ("startIndex", PInt start_index)]
    end
  /\ exists v1 v2 rest,
       request_params self start_index (Some custom_params) =
       ("resultsPerPage", v1) :: ("startIndex", v2) :: rest.
Proof.
  intros Hnodup. unfold request_params.
  destruct custom_params as [|kv more].
  - split; [reflexivity|]. eauto.
  - split.
    + apply get_update. exact Hnodup.
    + apply update_keeps_first_two.
Qed.

Lemma custom_params_override_witness :
  get "startIndex"
    (request_params Sample.handler 0
       (Some [("lastModStartDate", PStr "2023-11-01T00:00:00Z"); ("startIndex", PInt 40)]))
  = Some (PInt 40).
Proof.
  apply (proj1 (custom_params_override Sample.handler 0
                  [("lastModStartDate", PStr "2023-11-01T00:00:00Z");
                   ("startIndex", PInt 40)] "startIndex"
                  ltac:(repeat constructor; simpl; intuition discriminate))).
Defined.

(** ** What every request of a run carries (lines 69-81) *)

Section Sent.

Variable self : NvdHandler.
Variable w : world.

Lemma sent_the_write step vulnerabilities :
  sent_by_handler self (the_write step vulnerabilities).
Proof. unfold the_write. destruct (String.eqb _ _); exact I. Qed.

Lemma sent_events step start_index custom_params :
  get "resultsPerPage" (request_params self start_index custom_params)
    = Some (PInt (results_per_page self)) ->
  Forall (sent_by_handler self) (events self w step start_index custom_params).
Proof.
  intros Hrpp. rewrite events_records. constructor.
  - simpl. unfold request_headers. repeat split. exact Hrpp.
  - destruct (has_records _ _ _ _); repeat constructor. apply sent_the_write.
Qed.

Lemma sent_pool tasks : Forall (sent_by_handler self) (pool_calls self w tasks).
Proof.
  apply (Permutation_Forall (Permutation_sym (pool_calls_Permutation self w tasks))).
  induction tasks as [|i rest IH]; simpl; [constructor|].
  apply Forall_app. split; [|exact IH].
  apply sent_events. reflexivity.
Qed.

End Sent.

(** X4: every request of a full load and of an incremental sync goes to
    the configured base URL with the configured page size, under the
    limit of [api_rate_limit] calls in [rolling_window] seconds, and it
    carries the [apiKey] header when a key is configured and no header at
    all when none is. *)
Theorem every_request_as_configured self w tr :
  (exists calls,
      snd (download_all_data self w tr) = tr ++ calls
      /\ Forall (sent_by_handler self) calls)
  /\ (forall last_hours follow,
      exists calls,
        snd (get_updates self w last_hours follow tr) = tr ++ calls
        /\ Forall (sent_by_handler self) calls).
Proof.
  split.
  - rewrite download_all_data_run; cbv zeta.
    pose proof (sent_events self w "update" 0 None eq_refl) as Hseed.
    destruct (outcome self w "update" 0 None) as [data|e];
      [|simpl snd; eexists; split; [reflexivity | exact Hseed]].
    destruct (total_results_of data) as [total|e];
      [|simpl snd; eexists; split; [reflexivity | exact Hseed]].
    destruct (results_per_page self =? 0);
      [simpl snd; eexists; split; [reflexivity | exact Hseed]|].
    destruct (max_threads self <=? 0);
      [simpl snd; eexists; split; [reflexivity | exact Hseed]|].
    pose proof (sent_pool self w (submitted self (num_pages self total))) as Hpool.
    destruct (collect _ _) as [all|e]; simpl snd.
    + eexists. rewrite <- !app_assoc. split; [reflexivity|].
      apply Forall_app. split; [exact Hseed|].
      apply Forall_app. split; [exact Hpool|].
      constructor; [exact I|].
      destruct (save_data self && writable w "data/nvd_all.json"); repeat constructor.
    + eexists. rewrite <- app_assoc. split; [reflexivity|].
      apply Forall_app. split; assumption.
  - intros last_hours follow. rewrite get_updates_run; cbv zeta.
    destruct (lastModStartDate w last_hours) as [start|e].
    + pose proof (sent_events self w "update" 0 (Some (window_params w start)) eq_refl)
        as Hseed.
      destruct (outcome _ _ _ _ _) as [updates|e]; simpl snd.
      * eexists. rewrite <- app_assoc. split; [reflexivity|].
        apply Forall_app. split; [exact Hseed|].
        destruct (save_data self && writable w "data/nvd_update.json");
          repeat constructor.
      * eexists. split; [reflexivity | exact Hseed].
    + exists []. rewrite app_nil_r. split; [reflexivity | constructor].
Qed.

(** ** Decoding the records of a page (lines 93-96) *)

Lemma cve_of_each_objects vuls :
  forallb is_object vuls = true ->
  cve_of_each vuls = Ok (map cve_of vuls).
Proof.
  induction vuls as [|vul rest IH]; simpl; [reflexivity|].
  intros H. apply andb_prop in H. destruct H as [Hv Hrest].
  destruct vul; try discriminate. simpl.
  rewrite (IH Hrest). destruct (get "cve" fields); reflexivity.
Qed.

Lemma cve_of_each_not_object vuls :
  forallb is_object vuls = false ->
  cve_of_each vuls = Raise AttributeError.
Proof.
  induction vuls as [|vul rest IH]; simpl; [discriminate|].
  intros H. apply andb_false_iff in H.
  destruct vul; try reflexivity. simpl.
  destruct H as [H|H]; [discriminate|].
  rewrite (IH H). destruct (get "cve" fields); reflexivity.
Qed.

(** X5: the records of a fetched page are the [cve] objects of its
    entries, one for each entry and in their order, the empty object for
    an entry that has no [cve] key.  A page one of whose entries is no
    object is refused as a whole: [make_request] raises [AttributeError]
    after the request and writes nothing, not even the records of the
    entries that are well formed. *)
Theorem page_decoding self w step start_index custom_params data fields vuls :
  fetched self w start_index custom_params = Ok data ->
  data = JObj fields ->
  get "vulnerabilities" fields = Some (JArr vuls) ->
  (forallb is_object vuls = true ->
     outcome self w step start_index custom_params = Ok data
     /\ records self w start_index custom_params = map cve_of vuls
     /\ List.length (records self w start_index custom_params) = List.length vuls)
  /\ (forallb is_object vuls = false ->
     outcome self w step start_index custom_params = Raise AttributeError
     /\ events self w step start_index custom_params =
        [the_get self start_index custom_params]).
Proof.
  intros Hfetch -> Hget.
  assert (Hv : vulnerabilities_of (JObj fields) = cve_of_each vuls).
  { unfold vulnerabilities_of. simpl. rewrite Hget. reflexivity. }
  split; intros Hobj.
  - rewrite outcome_eq. unfold records. rewrite Hfetch. simpl.
    rewrite Hv, (cve_of_each_objects _ Hobj). simpl.
    rewrite length_map. auto.
  - rewrite outcome_eq, events_eq. unfold records. rewrite Hfetch. simpl.
    rewrite Hv, (cve_of_each_not_object _ Hobj). simpl. auto.
Qed.

Lemma page_decoding_witness :
  outcome Sample.handler
    (Sample.world_of (fun _ => Sample.page 2 [Sample.entry "CVE-1"; JStr "CVE-2"]) None)
    "update" 0 None = Raise AttributeError
  /\ events Sample.handler
       (Sample.world_of (fun _ => Sample.page 2 [Sample.entry "CVE-1"; JStr "CVE-2"]) None)
       "update" 0 None = [the_get Sample.handler 0 None].
Proof.
  apply (proj2 (page_decoding Sample.handler
                  (Sample.world_of
                     (fun _ => Sample.page 2 [Sample.entry "CVE-1"; JStr "CVE-2"]) None)
                  "update" 0 None _ _ _ eq_refl eq_refl eq_refl)).
  reflexivity.
Defined.

(** ** The calls on the store of a run (lines 98-104, 112, 125, 134) *)

Section StoreCalls.

Variable self : NvdHandler.
Variable w : world.

Lemma is_store_call_the_write step vulnerabilities :
  is_store_call (the_write step vulnerabilities) = true.
Proof. unfold the_write. destruct (String.eqb _ _); reflexivity. Qed.

Lemma store_calls_events step start_index custom_params :
  store_calls (events self w step start_index custom_params) =
  page_calls self w step start_index custom_params.
Proof.
  rewrite events_records. unfold page_calls, store_calls.
  destruct (has_records _ _ _ _); simpl; [|reflexivity].
  rewrite is_store_call_the_write. reflexivity.
Qed.

Lemma store_calls_pool tasks :
  interleaved (map (fun i => page_calls self w "init" i None) tasks)
              (store_calls (pool_calls self w tasks)).
Proof.
  pose proof (interleaved_filter is_store_call _ _ (pool_calls_interleaved self w tasks))
    as H.
  rewrite map_map in H.
  rewrite (map_ext _ (fun i => page_calls self w "init" i None)) in H;
    [exact H|].
  intros i. apply store_calls_events.
Qed.

Lemma filter_events_no_write (f : event -> bool) step start_index custom_params :
  f (the_get self start_index custom_params) = false ->
  (forall vulnerabilities, f (the_write step vulnerabilities) = false) ->
  f (UpdateStatus "nvd") = false ->
  filter f (events self w step start_index custom_params) = [].
Proof.
  intros Hget Hwrite Hstatus. rewrite events_records. simpl. rewrite Hget.
  destruct (has_records _ _ _ _); simpl; [|reflexivity].
  rewrite Hwrite, Hstatus. reflexivity.
Qed.

Lemma filter_pool_no_write (f : event -> bool) tasks :
  (forall i, f (the_get self i None) = false) ->
  (forall vulnerabilities, f (the_write "init" vulnerabilities) = false) ->
  f (UpdateStatus "nvd") = false ->
  filter f (pool_calls self w tasks) = [].
Proof.
  intros Hget Hwrite Hstatus.
  apply Permutation_nil, Permutation_sym.
  apply (perm_trans (filter_Permutation f _ _ (pool_calls_Permutation self w tasks))).
  induction tasks as [|i rest IH]; [constructor|].
  simpl flat_map. rewrite filter_app, filter_events_no_write by auto. exact IH.
Qed.

End StoreCalls.

(** X6: the calls on the store of a full load whose seed request went
    well and whose pool can be built are: first the upsert ([bulk_write])
    of the seed page and its status update, when the page has records;
    then those of the tasks of the pool, interleaved as the threads ran,
    each task contributing the [insert_many] of its page followed by the
    status update, when the page has records; and last the index on [id],
    when and only when the run ends well.  Only the seed page is
    upserted. *)
Theorem full_load_store_calls self w tr initial_response total_results :
  outcome self w "update" 0 None = Ok initial_response ->
  total_results_of initial_response = Ok total_results ->
  results_per_page self <> 0 ->
  0 < max_threads self ->
  exists pool,
    store_calls (snd (download_all_data self w tr)) =
      store_calls tr
      ++ (if has_records self w 0 None
          then [BulkWrite "cve" (records self w 0 None); UpdateStatus "nvd"]
          else [])
      ++ pool
      ++ (if is_ok (fst (download_all_data self w tr))
          then [EnsureIndexOnId "cve" "id"]
          else [])
    /\ interleaved
         (map (fun i => if has_records self w i None
                        then [InsertMany "cve" (records self w i None);
                              UpdateStatus "nvd"]
                        else [])
            (submitted self (num_pages self total_results)))
         pool.
Proof.
  intros Hseed Htotal Hrpp Hthreads.
  exists (store_calls (pool_calls self w (submitted self (num_pages self total_results)))).
  split; [|exact (store_calls_pool self w _)].
  rewrite download_all_data_run; cbv zeta. rewrite Hseed, Htotal.
  destruct (Z.eqb_spec (results_per_page self) 0) as [E|_]; [contradiction|].
  destruct (Z.leb_spec (max_threads self) 0) as [E|_]; [lia|].
  change (if has_records self w 0 None
          then [BulkWrite "cve" (records self w 0 None); UpdateStatus "nvd"]
          else [])
    with (page_calls self w "update" 0 None).
  destruct (collect _ _) as [all|e]; simpl snd; simpl fst; simpl is_ok;
    rewrite !store_calls_app, store_calls_events.
  - rewrite <- !app_assoc. repeat f_equal.
    destruct (save_data self && writable w "data/nvd_all.json"); reflexivity.
  - rewrite <- !app_assoc, app_nil_r. reflexivity.
Qed.

Lemma full_load_store_calls_witness :
  exists pool,
    store_calls
      (snd (download_all_data Sample.built
              (Sample.reversed_world Sample.failing_source) []))
    = [BulkWrite "cve" [JObj [("id", JStr "CVE-1")]; JObj [("id", JStr "CVE-2")]];
       UpdateStatus "nvd"] ++ pool ++ []
    /\ interleaved
         [[InsertMany "cve" [JObj [("id", JStr "CVE-3")]; JObj [("id", JStr "CVE-4")]];
           UpdateStatus "nvd"]; []]
         pool.
Proof.
  apply (full_load_store_calls Sample.built
           (Sample.reversed_world Sample.failing_source) []
           (JObj [("totalResults", JNum 5);
                  ("vulnerabilities",
                   JArr [Sample.entry "CVE-1"; Sample.entry "CVE-2"])])
           5 eq_refl eq_refl ltac:(discriminate) eq_refl).
Defined.

(** X7: a full load asks for the index on [id] of the collection [cve]
    once, as its last call on the store, when the run ends well, and not
    at all when it raises.  An incremental sync never asks for the index
    and never calls [insert_many]: what it writes, it upserts. *)
Theorem index_only_after_full_load self w tr :
  filter is_ensure_index (snd (download_all_data self w tr)) =
    filter is_ensure_index tr
    ++ (if is_ok (fst (download_all_data self w tr))
        then [EnsureIndexOnId "cve" "id"]
        else [])
  /\ (is_ok (fst (download_all_data self w tr)) = true ->
      exists calls,
        store_calls (snd (download_all_data self w tr)) =
        calls ++ [EnsureIndexOnId "cve" "id"])
  /\ (forall last_hours follow,
      filter is_ensure_index (snd (get_updates self w last_hours follow tr)) =
        filter is_ensure_index tr
      /\ filter is_insert_many (snd (get_updates self w last_hours follow tr)) =
        filter is_insert_many tr).
Proof.
  assert (Hseed : forall cp,
             filter is_ensure_index (events self w "update" 0 cp) = []).
  { intros cp. apply filter_events_no_write; reflexivity. }
  assert (Hseed' : forall cp,
             filter is_insert_many (events self w "update" 0 cp) = []).
  { intros cp. apply filter_events_no_write; reflexivity. }
  assert (Hpool : forall tasks,
             filter is_ensure_index (pool_calls self w tasks) = []).
  { intros tasks. apply filter_pool_no_write; reflexivity. }
  split; [|split].
  - rewrite download_all_data_run; cbv zeta.
    destruct (outcome self w "update" 0 None) as [data|e];
      [|simpl; rewrite filter_app, Hseed; reflexivity].
    destruct (total_results_of data) as [total|e];
      [|simpl; rewrite filter_app, Hseed; reflexivity].
    destruct (results_per_page self =? 0);
      [simpl; rewrite filter_app, Hseed; reflexivity|].
    destruct (max_threads self <=? 0);
      [simpl; rewrite filter_app, Hseed; reflexivity|].
    destruct (collect _ _) as [all|e]; simpl snd; simpl fst; simpl is_ok;
      rewrite !filter_app, Hseed, Hpool, ?app_nil_r; [|reflexivity].
    destruct (save_data self && writable w "data/nvd_all.json"); reflexivity.
  - rewrite download_all_data_run; cbv zeta.
    destruct (outcome self w "update" 0 None) as [data|e]; [|discriminate].
    destruct (total_results_of data) as [total|e]; [|discriminate].
    destruct (results_per_page self =? 0); [discriminate|].
    destruct (max_threads self <=? 0); [discriminate|].
    destruct (collect _ _) as [all|e]; [|discriminate].
    intros _. simpl snd. eexists.
    rewrite store_calls_app. f_equal.
    destruct (save_data self && writable w "data/nvd_all.json"); reflexivity.
  - intros last_hours follow. rewrite get_updates_run; cbv zeta.
    destruct (lastModStartDate w last_hours) as [start|e]; [|split; reflexivity].
    destruct (outcome _ _ _ _ _) as [updates|e]; simpl snd;
      rewrite !filter_app, ?Hseed, ?Hseed', ?app_nil_r.
    + destruct (save_data self && writable w "data/nvd_update.json");
        simpl; rewrite ?app_nil_r; split; reflexivity.
    + split; reflexivity.
Qed.

Lemma index_only_after_full_load_witness :
  exists calls,
    store_calls
      (snd (download_all_data Sample.handler
              (Sample.world_of Sample.small_source None) [])) =
    calls ++ [EnsureIndexOnId "cve" "id"].
Proof.
  apply (proj1 (proj2 (index_only_after_full_load Sample.handler
                         (Sample.world_of Sample.small_source None) []))).
  reflexivity.
Defined.

(** ** The files of a run (lines 136-137, 172-173) *)

Section Files.

Variable self : NvdHandler.
Variable w : world.

(** The loop over the futures, when none of the tasks raised: the entries
    of the pages, in the order of completion. *)
Lemma collect_all_ok order :
  (forall i, In i order -> is_ok (outcome self w "init" i None) = true) ->
  forall all_vulnerabilities,
    collect (pool_futures self w order) all_vulnerabilities =
    Ok (all_vulnerabilities ++ flat_map (entries self w) order).
Proof.
  induction order as [|i rest IH]; intros Hok acc; simpl.
  - rewrite app_nil_r. reflexivity.
  - pose proof (Hok i (or_introl eq_refl)) as Hi.
    unfold entries at 1.
    destruct (outcome self w "init" i None) as [data|e] eqn:Hout; [|discriminate].
    destruct (outcome_ok _ _ _ _ _ _ Hout) as [_ [vs Hvs]].
    destruct (vulnerabilities_of_ok _ _ Hvs) as [listing [vuls [Hl [Hit _]]]].
    simpl. rewrite Hl. simpl. rewrite Hit. simpl.
    rewrite IH by (intros j Hj; apply Hok; right; exact Hj).
    rewrite <- app_assoc. reflexivity.
Qed.

Lemma collect_not_all_ok order i :
  In i order ->
  is_ok (outcome self w "init" i None) = false ->
  forall all_vulnerabilities,
    is_ok (collect (pool_futures self w order) all_vulnerabilities) = false.
Proof.
  intros Hin Hi acc.
  destruct (outcome self w "init" i None) as [data|e] eqn:Hout; [discriminate|].
  destruct (collect_some_failure (pool_futures self w order) e) with
    (all_vulnerabilities := acc) as [e' He'].
  - unfold pool_futures. rewrite <- Hout.
    apply (in_map (fun i => outcome self w "init" i None)). exact Hin.
  - rewrite He'. reflexivity.
Qed.

End Files.




(** X9: a full load whose seed request went well and whose pool can be
    built ends well exactly when none of the tasks of the pool raised.
    The list for the snapshot then holds the entries of the pages of the
    pool in the order in which the tasks completed, which are the entries
    of these pages in the order of submission up to a permutation; it is
    written when [save_data] is on and the file can be opened. *)
Theorem full_load_succeeds_iff self w tr initial_response total_results :
  outcome self w "update" 0 None = Ok initial_response ->
  total_results_of initial_response = Ok total_results ->
  results_per_page self <> 0 ->
  0 < max_threads self ->
  (forall futures, Permutation (as_completed w futures) futures) ->
  let order := as_completed w (submitted self (num_pages self total_results)) in
  (fst (download_all_data self w tr) = Ok tt <->
   forall i, In i (submitted self (num_pages self total_results)) ->
             is_ok (outcome self w "init" i None) = true)
  /\ (fst (download_all_data self w tr) = Ok tt ->
      files (snd (download_all_data self w tr)) =
        files tr ++
        (if save_data self && writable w "data/nvd_all.json"
         then [("data/nvd_all.json",
                json_dump (JArr (flat_map (entries self w) order)))]
         else [])
      /\ Permutation (flat_map (entries self w) order)
           (flat_map (entries self w)
              (submitted self (num_pages self total_results)))).
Proof.
  intros Hseed Htotal Hrpp Hthreads Hperm order.
  assert (Hrun := download_all_data_run self w tr).
  assert (Hfiles := files_download_all_data self w tr).
  cbv zeta in Hrun. rewrite Hseed, Htotal in Hrun, Hfiles.
  destruct (Z.eqb_spec (results_per_page self) 0) as [E|_]; [contradiction|].
  destruct (Z.leb_spec (max_threads self) 0) as [E|_]; [lia|].
  simpl orb in Hfiles. cbv iota in Hfiles.
  fold order in Hrun, Hfiles.
  assert (Hdec : (forall i, In i order -> is_ok (outcome self w "init" i None) = true)
                 \/ exists i, In i order /\ is_ok (outcome self w "init" i None) = false).
  { clear. induction order as [|i rest IH]; [left; intros i []|].
    destruct (is_ok (outcome self w "init" i None)) eqn:Hi.
    - destruct IH as [IH|[j [Hj Hj']]].
      + left. intros j [<-|Hj]; auto.
      + right. exists j. split; [right; exact Hj | exact Hj'].
    - right. exists i. split; [left; reflexivity | exact Hi]. }
  assert (Hin : forall i, In i order <->
                          In i (submitted self (num_pages self total_results))).
  { intros i. split; apply Permutation_in;
      [apply Hperm | apply Permutation_sym, Hperm]. }
  split.
  - split.
    + intros Hok i Hi. apply Hin in Hi.
      destruct (is_ok (outcome self w "init" i None)) eqn:Hi'; [reflexivity|].
      pose proof (collect_not_all_ok self w order i Hi Hi' []) as Hc.
      rewrite Hrun in Hok. destruct (collect _ _); [discriminate | discriminate].
    + intros Hall. rewrite Hrun.
      rewrite (collect_all_ok self w order) by (intros i Hi; apply Hall, Hin, Hi).
      reflexivity.
  - intros Hok. destruct Hdec as [Hall|[i [Hi Hi']]].
    + rewrite Hfiles, (collect_all_ok self w order Hall).
      split; [reflexivity|].
      apply Permutation_flat_map, Hperm.
    + pose proof (collect_not_all_ok self w order i Hi Hi' []) as Hc.
      rewrite Hrun in Hok. destruct (collect _ _); discriminate.
Qed.

Lemma full_load_succeeds_iff_witness :
  fst (download_all_data Sample.built (Sample.reversed_world Sample.source) []) = Ok tt.
Proof.
  apply (proj1 (full_load_succeeds_iff Sample.built
                  (Sample.reversed_world Sample.source) []
                  (JObj [("totalResults", JNum 5);
                         ("vulnerabilities",
                          JArr [Sample.entry "CVE-1"; Sample.entry "CVE-2"])])
                  5 eq_refl eq_refl ltac:(discriminate) eq_refl
                  (fun futures => Permutation_sym (Permutation_rev futures)))).
  intros i [<-|[<-|[]]]; reflexivity.
Defined.

(** ** The encoder of the snapshots (src/handlers/utils.py lines 25-30, 51) *)

Lemma json_dump_serializable : forall obj, serializable (json_dump obj) = true.
Proof.
  fix IH 1. intros [ | b | n | s | items | fields | hex ]; simpl; try reflexivity.
  - induction items as [|item rest IHrest]; simpl; [reflexivity|].
    rewrite IH, IHrest. reflexivity.
  - induction fields as [|[k v] rest IHrest]; simpl; [reflexivity|].
    rewrite IH, IHrest. reflexivity.
Qed.

Lemma json_dump_fixed : forall obj, serializable obj = true -> json_dump obj = obj.
Proof.
  fix IH 1. intros [ | b | n | s | items | fields | hex ]; simpl;
    try reflexivity; try discriminate.
  - intros H. f_equal.
    induction items as [|item rest IHrest]; simpl in *; [reflexivity|].
    apply andb_prop in H. destruct H as [H1 H2].
    rewrite (IH item H1), (IHrest H2). reflexivity.
  - intros H. f_equal.
    induction fields as [|[k v] rest IHrest]; simpl in *; [reflexivity|].
    apply andb_prop in H. destruct H as [H1 H2].
    rewrite (IH v H1), (IHrest H2). reflexivity.
Qed.

(** X10: what [write2json] writes holds no [ObjectId], at any depth: each
    one is written as its string.  A document that holds none is written
    as it is, and encoding twice is encoding once. *)
Theorem json_dump_removes_object_ids obj :
  serializable (json_dump obj) = true
  /\ (serializable obj = true -> json_dump obj = obj)
  /\ json_dump (json_dump obj) = json_dump obj
  /\ (forall hex, json_dump (JObjectId hex) = JStr hex).
Proof.
  split; [apply json_dump_serializable|].
  split; [apply json_dump_fixed|].
  split; [apply json_dump_fixed, json_dump_serializable | reflexivity].
Qed.

Lemma json_dump_removes_object_ids_witness :
  json_dump (JArr [Sample.entry "CVE-1"]) = JArr [Sample.entry "CVE-1"].
Proof.
  apply (proj1 (proj2 (json_dump_removes_object_ids (JArr [Sample.entry "CVE-1"])))).
  reflexivity.
Defined.

(** ** The duration in the log message (lines 155-160) *)

(** X11: the three numbers of the duration in the log message are the
    whole minutes of the window, rounded down, split into days, hours
    below 24 and minutes below 60.  The days are 0, and left out of the
    message, exactly for a window of less than a day; for a start after
    the end the days are negative and the hours and minutes still count
    upwards from them. *)
Theorem duration_parts_decompose now_utc lastModStartDate :
  let '(days, hours24, minutes) := duration_parts now_utc lastModStartDate in
  0 <= hours24 < 24
  /\ 0 <= minutes < 60
  /\ (days * 24 + hours24) * 60 + minutes = (now_utc - lastModStartDate) / US_PER_MINUTE
  /\ (days = 0 <-> 0 <= now_utc - lastModStartDate < US_PER_DAY)
  /\ (days < 0 <-> now_utc < lastModStartDate).
Proof.
  unfold duration_parts, timedelta_days, timedelta_seconds,
    US_PER_DAY, US_PER_HOUR, US_PER_MINUTE, US_PER_SECOND.
  set (d := now_utc - lastModStartDate).
  assert (Hd : now_utc < lastModStartDate <-> d < 0) by (unfold d; lia).
  rewrite Hd. clearbody d. clear Hd.
  repeat split; Z.div_mod_to_equations; lia.
Qed.

(** ** The start of the window under an override (lines 145-146, 156-160) *)

(** X12: an hours override other than 0 whose start is no datetime, as one
    so large that the start would fall before the year 1, makes the
    incremental sync raise [OverflowError] before anything is requested or
    written. *)
Theorem override_out_of_range_raises self w H follow tr :
  H <> 0 ->
  representable (utcnow w - H * US_PER_HOUR) = false ->
  get_updates self w (Some H) follow tr = (Raise OverflowError, tr).
Proof.
  intros Hne Hrep. rewrite get_updates_run.
  unfold lastModStartDate, truth, sub, timedelta_hours.
  destruct (Z.eqb_spec H 0) as [E|_]; [contradiction|]. simpl.
  rewrite Hrep. reflexivity.
Qed.

Lemma override_out_of_range_raises_witness :
  get_updates Sample.handler (Sample.world_of Sample.source None)
    (Some 20000000) true [] = (Raise OverflowError, []).
Proof.
  apply override_out_of_range_raises; [lia | reflexivity].
Defined.

(** X13: under an override of [H] hours, [H] not 0, the window is [H]
    hours long: its start is before its end for a positive [H] and after
    it for a negative one, which the code lets through, and the duration
    of the message is [H / 24] days, [H mod 24] hours and 0 minutes. *)
Theorem override_window_length w H start :
  H <> 0 ->
  lastModStartDate w (Some H) = Ok start ->
  utcnow w - start = H * US_PER_HOUR
  /\ (0 < H -> start < utcnow w)
  /\ (H < 0 -> utcnow w < start)
  /\ duration_parts (utcnow w) start = (H / 24, H mod 24, 0).
Proof.
  intros Hne. unfold lastModStartDate, truth, sub, timedelta_hours.
  destruct (Z.eqb_spec H 0) as [E|_]; [contradiction|]. simpl.
  destruct (representable _); [|discriminate].
  intros Hstart. inversion Hstart; subst start. clear Hstart.
  unfold duration_parts, timedelta_days, timedelta_seconds,
    US_PER_DAY, US_PER_HOUR, US_PER_MINUTE, US_PER_SECOND.
  replace (utcnow w - (utcnow w - H * (3600 * 1000000)))
    with (H * (3600 * 1000000)) by lia.
  split; [reflexivity|]. split; [lia|]. split; [lia|].
  f_equal; [f_equal|]; Z.div_mod_to_equations; lia.
Qed.

Lemma override_window_length_witness :
  duration_parts (utcnow (Sample.world_of Sample.source None))
    (Sample.now - 50 * US_PER_HOUR) = (2, 2, 0).
Proof.
  apply (proj2 (proj2 (proj2 (override_window_length
                                (Sample.world_of Sample.source None) 50
                                (Sample.now - 50 * US_PER_HOUR)
                                ltac:(lia) eq_refl)))).
Defined.

(** ** utils.download_file (src/handlers/utils.py lines 56-108) *)

Section DownloadFacts.

Variable requests_get : string -> Utils.response.
Variable gzip_decompress : Utils.bytes -> option Utils.bytes.
Variable decode : Utils.bytes -> option string.
Variable makedirs_ok : string -> bool.
Variable open_ok : string -> bool.

Lemma download_file_not_200 url save_path is_binary :
  Utils.status_code (requests_get url) <> 200 ->
  Utils.download_file requests_get gzip_decompress decode makedirs_ok open_ok
    url save_path is_binary =
  (inl (Utils.DownloadFailed (Utils.status_code (requests_get url))), []).
Proof.
  intros Hne. unfold Utils.download_file.
  destruct (Z.eqb_spec (Utils.status_code (requests_get url)) 200);
    [contradiction | reflexivity].
Qed.

Lemma download_file_no_body url save_path is_binary :
  Utils.status_code (requests_get url) = 200 ->
  Utils.body_of gzip_decompress (requests_get url) = None ->
  Utils.download_file requests_get gzip_decompress decode makedirs_ok open_ok
    url save_path is_binary =
  (inl Utils.DecompressError, []).
Proof.
  intros H200 Hbody. unfold Utils.download_file. unfold Utils.body_of in Hbody.
  rewrite H200, Hbody. reflexivity.
Qed.

Lemma download_file_200 url save_path is_binary content :
  Utils.status_code (requests_get url) = 200 ->
  Utils.body_of gzip_decompress (requests_get url) = Some content ->
  Utils.download_file requests_get gzip_decompress decode makedirs_ok open_ok
    url save_path is_binary =
  match save_path, is_binary with
  | Some (String c path'), true =>
      if String.eqb (Utils.dirname (String c path')) ""
      then (inl Utils.FileNotFoundError, [])
      else if negb (makedirs_ok (Utils.dirname (String c path')))
      then (inl Utils.OSError, [])
      else if Utils.ends_with_slash (String c path')
      then (inl Utils.IsADirectoryError,
            [Utils.MakeDirs (Utils.dirname (String c path'))])
      else if negb (open_ok (String c path'))
      then (inl Utils.OSError, [Utils.MakeDirs (Utils.dirname (String c path'))])
      else (inr (Utils.VStr (String c path')),
            [Utils.MakeDirs (Utils.dirname (String c path'));
             Utils.WriteBinary (String c path') content])
  | _, false =>
      match decode content with
      | Some text => (inr (Utils.VStr text), [])
      | None => (inr Utils.VNone, [])
      end
  | _, true => (inr Utils.VNone, [])
  end.
Proof.
  intros H200 Hbody. unfold Utils.download_file. unfold Utils.body_of in Hbody.
  rewrite H200, Hbody. change (negb (200 =? 200)) with false. cbv iota.
  destruct save_path as [[|c path']|]; reflexivity.
Qed.

End DownloadFacts.

(** X14: [download_file] writes a file exactly when the answer is 200, the
    body is read (decompressed when the content type names gzip),
    [is_binary] is set, the save path has a directory part that
    [os.makedirs] accepts, and the path does not end in a slash and can be
    opened for writing; it then creates that directory, writes the body
    under the path and returns the path.  With [is_binary] set and a path
    without directory part it raises before writing, [os.makedirs]
    refusing the empty path; with a path that ends in a slash it raises
    after the directory is made, [open] refusing a directory; with
    [is_binary] set and no path it returns [None] and the body is lost. *)
Theorem download_file_writes requests_get gzip_decompress decode makedirs_ok open_ok
    url save_path is_binary :
  ((exists path data,
       In (Utils.WriteBinary path data)
          (snd (Utils.download_file requests_get gzip_decompress decode
                  makedirs_ok open_ok url save_path is_binary))) <->
     Utils.status_code (requests_get url) = 200
     /\ is_binary = true
     /\ exists path content,
          save_path = Some path
          /\ Utils.dirname path <> ""
          /\ makedirs_ok (Utils.dirname path) = true
          /\ Utils.ends_with_slash path = false
          /\ open_ok path = true
          /\ Utils.body_of gzip_decompress (requests_get url) = Some content
          /\ Utils.download_file requests_get gzip_decompress decode
               makedirs_ok open_ok url save_path is_binary =
             (inr (Utils.VStr path),
              [Utils.MakeDirs (Utils.dirname path); Utils.WriteBinary path content]))
  /\ (forall path content,
        Utils.status_code (requests_get url) = 200 ->
        Utils.body_of gzip_decompress (requests_get url) = Some content ->
        is_binary = true ->
        save_path = Some path -> path <> "" -> Utils.dirname path = "" ->
        Utils.download_file requests_get gzip_decompress decode
          makedirs_ok open_ok url save_path is_binary =
        (inl Utils.FileNotFoundError, []))
  /\ (forall path content,
        Utils.status_code (requests_get url) = 200 ->
        Utils.body_of gzip_decompress (requests_get url) = Some content ->
        is_binary = true ->
        save_path = Some path -> Utils.dirname path <> "" ->
        makedirs_ok (Utils.dirname path) = true ->
        Utils.ends_with_slash path = true ->
        Utils.download_file requests_get gzip_decompress decode
          makedirs_ok open_ok url save_path is_binary =
        (inl Utils.IsADirectoryError, [Utils.MakeDirs (Utils.dirname path)]))
  /\ (forall content,
        Utils.status_code (requests_get url) = 200 ->
        Utils.body_of gzip_decompress (requests_get url) = Some content ->
        is_binary = true ->
        save_path = None \/ save_path = Some "" ->
        Utils.download_file requests_get gzip_decompress decode
          makedirs_ok open_ok url save_path is_binary = (inr Utils.VNone, [])).
Proof.
  split; [|split; [|split]].
  - split.
    + intros [wpath [wdata Hwrites]].
      destruct (Z.eq_dec (Utils.status_code (requests_get url)) 200) as [H200|Hne];
        [|rewrite download_file_not_200 in Hwrites by exact Hne;
          contradiction Hwrites].
      destruct (Utils.body_of gzip_decompress (requests_get url)) as [content|] eqn:Hbody;
        [|rewrite download_file_no_body in Hwrites by assumption;
          contradiction Hwrites].
      pose proof (download_file_200 requests_get gzip_decompress decode
                    makedirs_ok open_ok url save_path is_binary content H200 Hbody) as E.
      rewrite E in Hwrites. rewrite E. clear E.
      destruct save_path as [[|c path']|], is_binary;
        try (destruct (decode content); contradiction Hwrites);
        try contradiction Hwrites.
      destruct (String.eqb_spec (Utils.dirname (String c path')) "") as [Hd|Hd];
        [contradiction Hwrites|].
      destruct (makedirs_ok (Utils.dirname (String c path'))) eqn:Hmk;
        [|contradiction Hwrites].
      destruct (Utils.ends_with_slash (String c path')) eqn:Hslash;
        [destruct Hwrites as [Hw|[]]; discriminate|].
      destruct (open_ok (String c path')) eqn:Hopen;
        [|destruct Hwrites as [Hw|[]]; discriminate].
      split; [exact H200|]. split; [reflexivity|].
      exists (String c path'), content. repeat split; auto.
    + intros [_ [_ [path [content [_ [_ [_ [_ [_ [_ E]]]]]]]]]]. rewrite E.
      exists path, content. right. left. reflexivity.
  - intros path content H200 Hbody -> -> Hne Hdir.
    rewrite (download_file_200 requests_get gzip_decompress decode
               makedirs_ok open_ok url (Some path) true content H200 Hbody).
    destruct path as [|c path']; [contradiction Hne; reflexivity|].
    rewrite Hdir. reflexivity.
  - intros path content H200 Hbody -> -> Hdir Hmk Hslash.
    rewrite (download_file_200 requests_get gzip_decompress decode
               makedirs_ok open_ok url (Some path) true content H200 Hbody).
    destruct path as [|c path']; [discriminate Hslash|].
    destruct (String.eqb_spec (Utils.dirname (String c path')) "") as [Hd|_];
      [contradiction|].
    rewrite Hmk, Hslash. reflexivity.
  - intros content H200 Hbody -> Hpath.
    rewrite (download_file_200 requests_get gzip_decompress decode
               makedirs_ok open_ok url save_path true content H200 Hbody).
    destruct Hpath as [-> | ->]; reflexivity.
Qed.

Lemma download_file_writes_witness :
  Utils.download_file
    (fun _ => Utils.mkResponse 200 (Some "application/octet-stream") "PK")
    (fun _ => None) (fun _ => None) (fun _ => true) (fun _ => true)
    "https://nvd.example/feed.zip" (Some "feed.zip") true
  = (inl Utils.FileNotFoundError, [])
  /\ Utils.download_file
       (fun _ => Utils.mkResponse 200 (Some "application/octet-stream") "PK")
       (fun _ => None) (fun _ => None) (fun _ => true) (fun _ => true)
       "https://nvd.example/feed.zip" (Some "feeds/") true
     = (inl Utils.IsADirectoryError, [Utils.MakeDirs "feeds"]).
Proof.
  split.
  - apply (proj1 (proj2 (download_file_writes
                           (fun _ => Utils.mkResponse 200
                                       (Some "application/octet-stream") "PK")
                           (fun _ => None) (fun _ => None)
                           (fun _ => true) (fun _ => true)
                           "https://nvd.example/feed.zip" (Some "feed.zip") true))
             "feed.zip" "PK" eq_refl eq_refl eq_refl eq_refl
             ltac:(discriminate) eq_refl).
  - apply (proj1 (proj2 (proj2 (download_file_writes
                           (fun _ => Utils.mkResponse 200
                                       (Some "application/octet-stream") "PK")
                           (fun _ => None) (fun _ => None)
                           (fun _ => true) (fun _ => true)
                           "https://nvd.example/feed.zip" (Some "feeds/") true)))
             "feeds/" "PK" eq_refl eq_refl eq_refl eq_refl
             ltac:(discriminate) eq_refl eq_refl).
Defined.

(** X15: without [is_binary], which is the default, [download_file] never
    touches the file system, whether a save path is given or not: on a
    200 answer whose body is read it returns the decoded text, and [None]
    when the bytes do not decode.  Whatever the arguments, an answer other
    than 200 raises with its status, and a body that does not decompress
    raises; both before anything is written. *)
Theorem download_file_text requests_get gzip_decompress decode makedirs_ok open_ok
    url save_path :
  snd (Utils.download_file requests_get gzip_decompress decode makedirs_ok open_ok
         url save_path false) = []
  /\ (forall content,
        Utils.status_code (requests_get url) = 200 ->
        Utils.body_of gzip_decompress (requests_get url) = Some content ->
        fst (Utils.download_file requests_get gzip_decompress decode makedirs_ok open_ok
               url save_path false) =
        match decode content with
        | Some text => inr (Utils.VStr text)
        | None => inr Utils.VNone
        end)
  /\ (forall is_binary,
        Utils.status_code (requests_get url) <> 200 ->
        Utils.download_file requests_get gzip_decompress decode makedirs_ok open_ok
          url save_path is_binary =
        (inl (Utils.DownloadFailed (Utils.status_code (requests_get url))), []))
  /\ (forall is_binary,
        Utils.status_code (requests_get url) = 200 ->
        Utils.body_of gzip_decompress (requests_get url) = None ->
        Utils.download_file requests_get gzip_decompress decode makedirs_ok open_ok
          url save_path is_binary =
        (inl Utils.DecompressError, [])).
Proof.
  split; [|split; [|split]].
  - destruct (Z.eq_dec (Utils.status_code (requests_get url)) 200) as [H200|Hne];
      [|rewrite download_file_not_200 by exact Hne; reflexivity].
    destruct (Utils.body_of gzip_decompress (requests_get url)) as [content|] eqn:Hbody;
      [|rewrite download_file_no_body by assumption; reflexivity].
    rewrite (download_file_200 requests_get gzip_decompress decode
               makedirs_ok open_ok url save_path false content H200 Hbody).
    destruct save_path as [[|c path']|]; destruct (decode content); reflexivity.
  - intros content H200 Hbody.
    rewrite (download_file_200 requests_get gzip_decompress decode
               makedirs_ok open_ok url save_path false content H200 Hbody).
    destruct save_path as [[|c path']|]; destruct (decode content); reflexivity.
  - intros is_binary Hne. apply download_file_not_200. exact Hne.
  - intros is_binary H200 Hbody. apply download_file_no_body; assumption.
Qed.

Lemma download_file_text_witness :
  fst (Utils.download_file
         (fun _ => Utils.mkResponse 200 (Some "text/plain") "CVE-1")
         (fun _ => None) (fun b => Some b) (fun _ => true) (fun _ => true)
         "https://nvd.example/list.txt" (Some "data/list.txt") false)
  = inr (Utils.VStr "CVE-1").
Proof.
  apply (proj1 (proj2 (download_file_text
                         (fun _ => Utils.mkResponse 200 (Some "text/plain") "CVE-1")
                         (fun _ => None) (fun b => Some b)
                         (fun _ => true) (fun _ => true)
                         "https://nvd.example/list.txt" (Some "data/list.txt")))
           "CVE-1" eq_refl eq_refl).
Defined.

(** ** The edges of the page count (lines 115-116, 125-126) *)

Lemma submitted_nil_iff self total_results :
  0 < results_per_page self ->
  submitted self (num_pages self total_results) = [] <->
  total_results <= results_per_page self.
Proof.
  intros Hpos.
  pose proof (num_pages_bounds self total_results Hpos) as [Hlo Hhi].
  unfold submitted, range. split.
  - intros H. apply map_eq_nil in H. apply map_eq_nil in H.
    destruct (Z.to_nat (num_pages self total_results - 1)) eqn:E; [|discriminate].
    nia.
  - intros H. replace (Z.to_nat (num_pages self total_results - 1)) with 0%nat;
      [reflexivity|]. nia.
Qed.

(** X16: with a page size above 0 and a pool that can be built, a full
    load whose seed request went well sends that one request and no other
    exactly when [totalResults] is at most the page size: a result set
    that fits the seed page is loaded in one request, and any larger one
    brings further requests. *)
Theorem single_page_load self w tr initial_response total_results :
  outcome self w "update" 0 None = Ok initial_response ->
  total_results_of initial_response = Ok total_results ->
  0 < results_per_page self ->
  0 < max_threads self ->
  (requested (snd (download_all_data self w tr)) =
   requested tr ++ [full_url self 0 None]
   <-> total_results <= results_per_page self).
Proof.
  intros Hseed Htotal Hpos Hthreads.
  rewrite (download_all_data_requested self w tr initial_response total_results
             Hseed Htotal ltac:(lia) Hthreads).
  rewrite <- (submitted_nil_iff self total_results Hpos).
  pose proof (requested_pool self w (submitted self (num_pages self total_results)))
    as Hp.
  split.
  - intros H. apply app_inv_head in H. inversion H as [H'].
    rewrite H' in Hp. apply Permutation_nil in Hp.
    apply map_eq_nil in Hp. exact Hp.
  - intros H. rewrite H in *. apply Permutation_sym, Permutation_nil in Hp.
    rewrite Hp. reflexivity.
Qed.

Lemma single_page_load_witness :
  requested (snd (download_all_data Sample.built
                    (Sample.world_of Sample.small_source None) []))
  = [full_url Sample.built 0 None].
Proof.
  apply (proj2 (single_page_load Sample.built
                  (Sample.world_of Sample.small_source None) []
                  (JObj [("totalResults", JNum 2);
                         ("vulnerabilities",
                          JArr [Sample.entry "CVE-1"; Sample.entry "CVE-2"])])
                  2 eq_refl eq_refl ltac:(reflexivity) ltac:(reflexivity))).
  simpl. lia.
Defined.

(** X17: what a full load does at the edges of lines 115, 116 and 123,
    once the seed request went well.  A page without [totalResults] counts
    as 0 results: when the pool can be built, no task is submitted and the
    run ends well on the seed page.  A [totalResults] that is no number
    raises [TypeError], a page size of 0 raises [ZeroDivisionError], and a
    number of threads that is not above 0 raises [ValueError]; all three
    after the seed page has been written and its status updated, and
    before any other request. *)
Theorem full_load_edges self w tr initial_response :
  outcome self w "update" 0 None = Ok initial_response ->
  (forall fields,
      initial_response = JObj fields ->
      get "totalResults" fields = None ->
      0 < results_per_page self ->
      0 < max_threads self ->
      as_completed w [] = [] ->
      fst (download_all_data self w tr) = Ok tt
      /\ requested (snd (download_all_data self w tr)) =
         requested tr ++ [full_url self 0 None])
  /\ (total_results_of initial_response = Raise TypeError ->
      download_all_data self w tr =
      (Raise TypeError, tr ++ events self w "update" 0 None))
  /\ (forall total_results,
      total_results_of initial_response = Ok total_results ->
      results_per_page self = 0 ->
      download_all_data self w tr =
      (Raise ZeroDivisionError, tr ++ events self w "update" 0 None))
  /\ (forall total_results,
      total_results_of initial_response = Ok total_results ->
      results_per_page self <> 0 ->
      max_threads self <= 0 ->
      download_all_data self w tr =
      (Raise ValueError, tr ++ events self w "update" 0 None)).
Proof.
  intros Hseed. split; [|split; [|split]].
  - intros fields -> Hget Hpos Hthreads Hnil.
    assert (Htotal : total_results_of (JObj fields) = Ok 0).
    { unfold total_results_of. simpl. rewrite Hget. reflexivity. }
    assert (Hsub : submitted self (num_pages self 0) = []).
    { apply submitted_nil_iff; lia. }
    split.
    + rewrite download_all_data_run; cbv zeta. rewrite Hseed, Htotal, Hsub, Hnil.
      destruct (Z.eqb_spec (results_per_page self) 0) as [E|_]; [lia|].
      destruct (Z.leb_spec (max_threads self) 0) as [E|_]; [lia|].
      reflexivity.
    + rewrite (download_all_data_requested self w tr (JObj fields) 0
                 Hseed Htotal ltac:(lia) Hthreads).
      rewrite Hsub.
      rewrite (Permutation_nil (Permutation_sym (requested_pool self w []))).
      reflexivity.
  - intros Htotal. rewrite download_all_data_run; cbv zeta.
    rewrite Hseed, Htotal. reflexivity.
  - intros total_results Htotal Hrpp. rewrite download_all_data_run; cbv zeta.
    rewrite Hseed, Htotal, Hrpp. reflexivity.
  - intros total_results Htotal Hrpp Hthreads. rewrite download_all_data_run; cbv zeta.
    rewrite Hseed, Htotal.
    destruct (Z.eqb_spec (results_per_page self) 0) as [E|_]; [contradiction|].
    destruct (Z.leb_spec (max_threads self) 0) as [_|E]; [reflexivity | lia].
Qed.

Lemma full_load_edges_witness :
  download_all_data Sample.built
    (Sample.world_of
       (fun _ => mkResponse 200
                   (Some (JObj [("totalResults", JStr "many");
                                ("vulnerabilities", JArr [Sample.entry "CVE-1"])])))
       None) []
  = (Raise TypeError,
     [the_get Sample.built 0 None;
      BulkWrite "cve" [JObj [("id", JStr "CVE-1")]];
      UpdateStatus "nvd"])
  /\ download_all_data
       (init (mkConfig None None None None None None None (Some 2) (Some 0) None))
       (Sample.world_of Sample.source None) []
     = (Raise ValueError,
        [the_get Sample.built 0 None;
         BulkWrite "cve" [JObj [("id", JStr "CVE-1")]; JObj [("id", JStr "CVE-2")]];
         UpdateStatus "nvd"]).
Proof.
  split.
  - apply (proj1 (proj2 (full_load_edges Sample.built
                           (Sample.world_of
                              (fun _ => mkResponse 200
                                 (Some (JObj [("totalResults", JStr "many");
                                              ("vulnerabilities",
                                               JArr [Sample.entry "CVE-1"])])))
                              None) [] _ eq_refl))).
    reflexivity.
  - apply (proj2 (proj2 (proj2
             (full_load_edges
                (init (mkConfig None None None None None None None (Some 2) (Some 0) None))
                (Sample.world_of Sample.source None) []
                (JObj [("totalResults", JNum 5);
                       ("vulnerabilities",
                        JArr [Sample.entry "CVE-1"; Sample.entry "CVE-2"])])
                eq_refl))) 5 eq_refl ltac:(discriminate) ltac:(discriminate)).
Defined.
